(** * Expense tracker: a shallow embedding of [expense_tracker.py]

    The development follows the layout of the Python module: first the
    Python built-ins the code relies on ([str.strip], [str.lower], string
    comparison, [sorted], [sum], [float]), then [ExpenseManager], then the
    two file operations of [ExpenseTrackerCLI] (export and import), and
    finally the properties of the specification.

    Conventions.
    - A Python [str] is a [string] (a list of bytes); the case and
      white-space functions below act on the ASCII range.
    - A Python [float] is a primitive binary64 [float]; its arithmetic is
      the hardware arithmetic Python uses.
    - An expense dictionary is a record with the six keys the code writes.
    - A method that reads or writes [self.expenses] is a computation in a
      state monad over the manager. *)

From Stdlib Require Import ZArith QArith Floats.PrimFloat Floats.SpecFloat Floats.FloatOps.
From Stdlib Require Import Strings.Ascii Strings.String.
From Stdlib Require Uint63 OrdersEx.
From stdpp Require Import base list strings gmap pretty sorting.

Local Open Scope string_scope.
Local Open Scope list_scope.

(** ** Python strings *)

Module PyStr.

(** [str.isspace] on one ASCII character: TAB, LF, VT, FF, CR, the four
    separators FS, GS, RS, US, and the space. *)
Definition is_space (c : ascii) : bool :=
  let n := nat_of_ascii c in
  ((9 <=? n)%nat && (n <=? 13)%nat) || ((28 <=? n)%nat && (n <=? 32)%nat).

(** [s.lstrip()] *)
Fixpoint lstrip (s : string) : string :=
  match s with
  | String c s' => if is_space c then lstrip s' else s
  | EmptyString => EmptyString
  end.

(** [s.rstrip()] *)
Fixpoint rstrip (s : string) : string :=
  match s with
  | String c s' =>
      match rstrip s' with
      | EmptyString => if is_space c then EmptyString else String c EmptyString
      | r => String c r
      end
  | EmptyString => EmptyString
  end.

(** [s.strip()] *)
Definition strip (s : string) : string := rstrip (lstrip s).

(** [c.lower()] on one ASCII character. *)
Definition lower_ascii (c : ascii) : ascii :=
  let n := nat_of_ascii c in
  if ((65 <=? n)%nat && (n <=? 90)%nat)%bool then ascii_of_nat (n + 32) else c.

(** [s.lower()] *)
Fixpoint lower (s : string) : string :=
  match s with
  | String c s' => String (lower_ascii c) (lower s')
  | EmptyString => EmptyString
  end.

(** [not s]: the truth value of a string is its non-emptiness. *)
Definition falsy (s : string) : bool :=
  match s with EmptyString => true | _ => false end.

(** [a <= b] on strings: lexicographic by code point. *)
Definition le (a b : string) : bool := String.leb a b.

End PyStr.

(** ** Python numbers *)

(** The amounts of a store are Python numbers. The code only adds them,
    starts sums at [0] and divides a total by a record count, so these
    three operations form the interface; [add_expense] and
    [import_expenses] always build binary64 floats ([float(amount)]). *)
Class Number (A : Type) : Type := {
  zero : A;
  add : A -> A -> A;
  truediv : A -> nat -> A
}.

(** The record count of a list as a float ([total / count] converts the
    [int] operand); lists are far shorter than 2^63. *)
Definition float_of_nat (n : nat) : float :=
  PrimFloat.of_uint63 (Uint63.of_Z (Z.of_nat n)).

#[export] Instance float_number : Number float := {
  zero := 0%float;
  add := PrimFloat.add;
  truediv x n := PrimFloat.div x (float_of_nat n)
}.

(** Exact rational arithmetic: the decimal amounts of the data model, with
    no rounding. *)
#[export] Instance Q_number : Number Q := {
  zero := 0%Q;
  add := Qplus;
  truediv x n := Qdiv x (inject_Z (Z.of_nat n))
}.

(** ** Python built-ins on lists and dictionaries *)

Module Py.

Section Builtins.
Context {A : Type}.

(** [sum(xs)]: starts at [0] and adds the items from left to right. *)
Definition sum `{Number A} (xs : list A) : A := fold_left add xs zero.

(** [sorted(xs, key=key, reverse=True)] for a string-valued key: a
    stable sort into descending key order. Stability is kept under
    [reverse=True]: items with equal keys stay in their input order.
    The sort is written as an insertion sort; [insert_desc x l] puts
    [x] in front of the first item whose key is not greater. *)
Fixpoint insert_desc (key : A -> string) (x : A) (l : list A) : list A :=
  match l with
  | [] => [x]
  | y :: r =>
      if String.ltb (key x) (key y) then y :: insert_desc key x r
      else x :: y :: r
  end.

Definition sorted_reverse (key : A -> string) (xs : list A) : list A :=
  fold_right (insert_desc key) [] xs.

(** A [dict] with string keys keeps its keys in insertion order. *)
Definition dict : Type := list (string * A).

(** [d.get(k, default)] *)
Fixpoint dict_get (d : dict) (k : string) (default : A) : A :=
  match d with
  | [] => default
  | (k', v) :: r => if String.eqb k' k then v else dict_get r k default
  end.

(** [d[k] = v]: overwrites in place when the key is present, otherwise
    appends the key. *)
Fixpoint dict_set (d : dict) (k : string) (v : A) : dict :=
  match d with
  | [] => [(k, v)]
  | (k', v') :: r =>
      if String.eqb k' k then (k', v) :: r else (k', v') :: dict_set r k v
  end.

(** [d.values()] and [d.keys()] *)
Definition dict_values (d : dict) : list A := map snd d.
Definition dict_keys (d : dict) : list string := map fst d.

End Builtins.

Arguments dict : clear implicits.

(** [sorted(xs)] on a list of strings: ascending, by code point. *)
Fixpoint insert_asc (x : string) (l : list string) : list string :=
  match l with
  | [] => [x]
  | y :: r => if String.ltb y x then y :: insert_asc x r else x :: y :: r
  end.

Definition sorted (xs : list string) : list string :=
  fold_right insert_asc [] xs.

End Py.

(** ** [float(s)] *)

(** The grammar that [float] accepts on a string, on ASCII input: optional
    white space (TAB, LF, VT, FF, CR, space) around an optionally signed [inf], [infinity], [nan] (in
    any case) or a decimal literal with optional fraction and exponent,
    whose digit groups may be separated by single underscores. The value
    is the literal rounded to the nearest binary64, ties to even. [None]
    stands for [ValueError]. *)
Module PyFloat.

(** The white space that [float] skips around an ASCII text: TAB, LF, VT,
    FF, CR and the space. The separators FS, GS, RS and US, which
    [str.strip] removes, are not skipped: [float] rejects a text that
    starts or ends with one. *)
Definition is_space (c : ascii) : bool :=
  let n := nat_of_ascii c in
  ((9 <=? n)%nat && (n <=? 13)%nat) || (n =? 32)%nat.

Fixpoint lstrip (s : string) : string :=
  match s with
  | String c s' => if is_space c then lstrip s' else s
  | EmptyString => EmptyString
  end.

Fixpoint rstrip (s : string) : string :=
  match s with
  | String c s' =>
      match rstrip s' with
      | EmptyString => if is_space c then EmptyString else String c EmptyString
      | r => String c r
      end
  | EmptyString => EmptyString
  end.

(** The text between the white space that [float] skips. *)
Definition strip (s : string) : string := rstrip (lstrip s).

Definition digit_val (c : ascii) : option Z :=
  let n := nat_of_ascii c in
  if ((48 <=? n)%nat && (n <=? 57)%nat)%bool then Some (Z.of_nat (n - 48))
  else None.

(** The rest of a digit part, after its first digit: [acc] is the value
    read so far and [n] the number of digits read. *)
Fixpoint digits_tail (acc : Z) (n : Z) (s : string) : Z * Z * string :=
  match s with
  | String c r =>
      match digit_val c with
      | Some d => digits_tail (10 * acc + d) (n + 1) r
      | None =>
          if Ascii.eqb c "_" then
            match r with
            | String c' r' =>
                match digit_val c' with
                | Some d => digits_tail (10 * acc + d) (n + 1) r'
                | None => (acc, n, s)
                end
            | EmptyString => (acc, n, s)
            end
          else (acc, n, s)
      end
  | EmptyString => (acc, n, s)
  end.

(** A digit part, continuing the value [acc]. *)
Definition digitpart (acc : Z) (s : string) : option (Z * Z * string) :=
  match s with
  | String c r =>
      match digit_val c with
      | Some d => Some (digits_tail (10 * acc + d) 1 r)
      | None => None
      end
  | EmptyString => None
  end.

(** An optional sign; [true] is minus. *)
Definition sign (s : string) : bool * string :=
  match s with
  | String c r =>
      if Ascii.eqb c "-" then (true, r)
      else if Ascii.eqb c "+" then (false, r)
      else (false, s)
  | EmptyString => (false, s)
  end.

(** [number]: the digits as one integer and the count of fraction
    digits. *)
Definition number (s : string) : option (Z * Z * string) :=
  match s with
  | String "." r => digitpart 0 r
  | _ =>
      match digitpart 0 s with
      | Some (m, _, String "." r) =>
          match digitpart m r with
          | Some res => Some res
          | None => Some (m, 0%Z, r)
          end
      | Some (m, _, r) => Some (m, 0%Z, r)
      | None => None
      end
  end.

(** [exponent], when the literal has one. *)
Definition exponent (s : string) : option (Z * string) :=
  match s with
  | String c r =>
      if Ascii.eqb c "e" then
        let '(neg, r') := sign r in
        match digitpart 0 r' with
        | Some (e, _, r'') => Some (if neg then (- e)%Z else e, r'')
        | None => None
        end
      else None
  | EmptyString => Some (0%Z, s)
  end.

(** [m * 10^e], correctly rounded. *)
Definition of_decimal (neg : bool) (m : Z) (e : Z) : float :=
  match m with
  | Zpos p =>
      let magnitude :=
        SF2Prim
          (if (0 <=? e)%Z then
             binary_normalize prec emax (Zpos p * 10 ^ e) 0 false
           else
             match (10 ^ (- e))%Z with
             | Zpos q =>
                 SFdiv prec emax (S754_finite false p 0) (S754_finite false q 0)
             | _ => S754_nan
             end) in
      if neg then PrimFloat.opp magnitude else magnitude
  | _ => if neg then neg_zero else PrimFloat.zero
  end.

Definition float_of_str (s : string) : option float :=
  let '(neg, r) := sign (PyStr.lower (strip s)) in
  let signed x := if neg then PrimFloat.opp x else x in
  if String.eqb r "inf" || String.eqb r "infinity" then Some (signed infinity)
  else if String.eqb r "nan" then Some nan
  else
    match number r with
    | Some (m, frac, r') =>
        match exponent r' with
        | Some (e, EmptyString) => Some (of_decimal neg m (e - frac))
        | _ => None
        end
    | None => None
    end.

End PyFloat.

(** ** Expense records *)

(** The dictionary built by [add_expense] and by [import_expenses]; [A] is
    the type of its amount. *)
Record Expense (A : Type) : Type := mkExpense {
  id : string;
  amount : A;
  category : string;
  description : string;
  date : string;
  created_at : string
}.

Arguments mkExpense {A} _ _ _ _ _ _.
Arguments id {A} _.
Arguments amount {A} _.
Arguments category {A} _.
Arguments description {A} _.
Arguments date {A} _.
Arguments created_at {A} _.

(** ** Files, output and exceptions *)

(** The exceptions that the modelled calls can raise. *)
Inductive exn : Type :=
  | FileNotFoundError
  | IsADirectoryError
  | PermissionError
  | UnicodeDecodeError
  | JSONDecodeError
  | ValueError
  | TypeError
  | AttributeError
  | CsvError.

(** A written CSV cell is the [str] of a dictionary value. *)
Inductive cell : Type :=
  | CStr (s : string)
  | CNum (x : float).

(** What a file holds, as the pieces that were written to it: bytes that
    were there before, a [json.dump] of the store, or one CSV line. *)
Inductive chunk : Type :=
  | Raw (bytes : string)
  | JsonDoc (es : list (Expense float))
  | CsvRow (cells : list cell).

Inductive node : Type :=
  | Directory
  | File (writable : bool) (content : list chunk).

(** The result of a call: a value, a raised exception, or [IllTyped] when
    the call would put a value into a record that the record type cannot
    hold ([None] in a string field); no handler catches the latter, the
    run simply leaves the typed data model. *)
Inductive Res (X : Type) : Type :=
  | Ok (x : X)
  | Raise (e : exn)
  | IllTyped.

Arguments Ok {X} _.
Arguments Raise {X} _.
Arguments IllTyped {X}.

(** ** The manager and its state monad *)

(** The state the program acts on: the two attributes of the manager, the
    file system it writes to and the lines printed so far. *)
Record World (A : Type) : Type := mkWorld {
  data_file : string;
  expenses : list (Expense A);
  fs : gmap string node;
  stdout : list string
}.

Arguments mkWorld {A} _ _ _ _.
Arguments data_file {A} _.
Arguments expenses {A} _.
Arguments fs {A} _.
Arguments stdout {A} _.

Section Monad.
Context {A : Type}.

Definition M (X : Type) : Type := World A -> Res X * World A.

Definition ret {X} (x : X) : M X := fun w => (Ok x, w).

Definition raise {X} (e : exn) : M X := fun w => (Raise e, w).

Definition ill_typed {X} : M X := fun w => (IllTyped, w).

Definition bind {X Y} (m : M X) (k : X -> M Y) : M Y :=
  fun w =>
    match m w with
    | (Ok x, w') => k x w'
    | (Raise e, w') => (Raise e, w')
    | (IllTyped, w') => (IllTyped, w')
    end.

(** [try: body except <handled>: handler] *)
Definition try_except {X} (body : M X) (handled : exn -> bool)
    (handler : exn -> M X) : M X :=
  fun w =>
    match body w with
    | (Ok x, w') => (Ok x, w')
    | (Raise e, w') => if handled e then handler e w' else (Raise e, w')
    | (IllTyped, w') => (IllTyped, w')
    end.

(** [self.expenses] and [self.expenses = es] *)
Definition get_expenses : M (list (Expense A)) := fun w => (Ok (expenses w), w).
Definition set_expenses (es : list (Expense A)) : M unit :=
  fun w => (Ok tt, mkWorld (data_file w) es (fs w) (stdout w)).

Definition get_data_file : M string := fun w => (Ok (data_file w), w).
Definition get_fs : M (gmap string node) := fun w => (Ok (fs w), w).
Definition set_fs (f : gmap string node) : M unit :=
  fun w => (Ok tt, mkWorld (data_file w) (expenses w) f (stdout w)).

(** [print(line)] *)
Definition print (line : string) : M unit :=
  fun w => (Ok tt, mkWorld (data_file w) (expenses w) (fs w) (stdout w ++ [line])).

End Monad.

Arguments M : clear implicits.

Notation "'do' x <- m ; k" := (bind m (fun x => k))
  (at level 10, x name, m at level 100, k at level 200).
Notation "'run' m ; k" := (bind m (fun _ => k))
  (at level 10, m at level 100, k at level 200).

(** ** ExpenseManager *)

(** The dictionary returned by [get_summary]. *)
Record Summary (A : Type) : Type := mkSummary {
  total : A;
  count : nat;
  average : A;
  categories : Py.dict A
}.

Arguments mkSummary {A} _ _ _ _.
Arguments total {A} _.
Arguments count {A} _.
Arguments average {A} _.
Arguments categories {A} _.

Section Manager.
Context {A : Type} `{Number A}.

Abbreviation expense := (Expense A).

(** [get_all_expenses] *)
Definition get_all_expenses : M A (list expense) :=
  do es <- get_expenses;
  ret (Py.sorted_reverse created_at es).

(** [get_expenses_by_category] *)
Definition get_expenses_by_category (cat : string) : M A (list expense) :=
  do es <- get_expenses;
  ret (filter (fun exp => PyStr.lower (category exp) = PyStr.lower cat) es).

(** [get_expenses_by_date_range]; [a <= b <= c] is [a <= b and b <= c]. *)
Definition get_expenses_by_date_range (start_date end_date : string)
    : M A (list expense) :=
  do es <- get_expenses;
  ret (filter (fun exp => PyStr.le start_date (date exp) &&
                          PyStr.le (date exp) end_date = true) es).

(** [delete_expense]: the comprehension keeps the records whose id
    differs, and the result compares the two lengths. *)
Definition delete_expense (expense_id : string) : M A bool :=
  do es <- get_expenses;
  let original_length := length es in
  run set_expenses (filter (fun exp => id exp ≠ expense_id) es);
  do es' <- get_expenses;
  ret (length es' <? original_length)%nat.

(** The loop of [get_summary] that fills [categories]. *)
Definition tally (es : list expense) : Py.dict A :=
  fold_left
    (fun cats exp =>
       let cat := category exp in
       Py.dict_set cats cat (add (Py.dict_get cats cat zero) (amount exp)))
    es [].

(** [get_summary] *)
Definition get_summary : M A (Summary A) :=
  do es <- get_expenses;
  match es with
  | [] => ret (mkSummary zero 0 zero [])
  | _ =>
      let total := Py.sum (map amount es) in
      let count := length es in
      let categories := tally es in
      ret (mkSummary total count
             (if (0 <? count)%nat then truediv total count else zero)
             categories)
  end.

(** [get_categories]: the set of stored categories, as a sorted list. *)
Definition get_categories : M A (list string) :=
  do es <- get_expenses;
  let categories : gset string := list_to_set (map category es) in
  ret (Py.sorted (elements categories)).

End Manager.

(** ** The methods that build and validate float records *)

(** [str(uuid.uuid4())[:8]] *)
Definition short_id (uuid4 : string) : string := substring 0 8 uuid4.

(** [add_expense]; [uuid4], [today] and [now] are the values that
    [uuid.uuid4()], [date.today().isoformat()] and
    [datetime.now().isoformat()] give during the call. [float(amount)] is
    the identity on a float. *)
Definition add_expense (uuid4 today now : string)
    (amount : float) (category description : string)
    (expense_date : option string) : M float (Expense float) :=
  let expense_date := default today expense_date in
  let expense :=
    mkExpense (short_id uuid4) amount (PyStr.strip category)
      (PyStr.strip description) expense_date now in
  do es <- get_expenses;
  run set_expenses (es ++ [expense]);
  ret expense.

(** [validate_expense] *)
Definition validate_expense (amount category description : string)
    : list string :=
  let errors := [] in
  let errors :=
    match PyFloat.float_of_str amount with
    | Some amount_float =>
        if PrimFloat.leb amount_float 0 then errors ++ ["Amount must be positive"]
        else errors
    | None => errors ++ ["Amount must be a valid number"]
    end in
  let errors :=
    if PyStr.falsy (PyStr.strip category) then errors ++ ["Category is required"]
    else errors in
  let errors :=
    if PyStr.falsy (PyStr.strip description)
    then errors ++ ["Description is required"]
    else errors in
  errors.

(** ** Reading and writing the data file *)

(** What reading the data file yields: [open] raises, the bytes do not
    decode, the text is not JSON, or [json.load] returns a value. *)
Inductive json_source : Type :=
  | JOpenError (e : exn)
  | JUndecodable
  | JMalformed
  | JDocument (es : list (Expense float))
  | JOtherValue.

(** [str(e)] for the message of a handler. *)
Definition exn_str (e : exn) : string :=
  match e with
  | FileNotFoundError => "No such file or directory"
  | IsADirectoryError => "Is a directory"
  | PermissionError => "Permission denied"
  | UnicodeDecodeError => "codec can't decode byte"
  | JSONDecodeError => "Expecting value"
  | ValueError => "could not convert string to float"
  | TypeError => "float() argument must be a string or a real number, not 'NoneType'"
  | AttributeError => "'NoneType' object has no attribute 'strip'"
  | CsvError => "line contains NUL"
  end.

(** [except Exception]: every modelled exception is one. *)
Definition is_Exception (e : exn) : bool := true.

(** [load_expenses]; [file] is [None] when [os.path.exists] is false. *)
Definition load_expenses (file : option json_source) : M float unit :=
  match file with
  | Some src =>
      try_except
        match src with
        | JOpenError e => raise e
        | JUndecodable => raise UnicodeDecodeError
        | JMalformed => raise JSONDecodeError
        | JDocument es => set_expenses es
        | JOtherValue => ill_typed
        end
        (fun e => match e with
                  | JSONDecodeError | FileNotFoundError => true
                  | _ => false
                  end)
        (fun _ => set_expenses [])
  | None => set_expenses []
  end.

(** [open(path, 'w')]: creates the file or truncates it. *)
Definition open_w {A} (path : string) : M A unit :=
  do f <- get_fs;
  if PyStr.falsy path then raise FileNotFoundError
  else
    match f !! path with
    | Some Directory => raise IsADirectoryError
    | Some (File false _) => raise PermissionError
    | _ => set_fs (<[path := File true []]> f)
    end.

(** A write through the open file. *)
Definition write {A} (path : string) (c : chunk) : M A unit :=
  do f <- get_fs;
  match f !! path with
  | Some (File w cs) => set_fs (<[path := File w (cs ++ [c])]> f)
  | _ => ret tt
  end.

(** [save_expenses] *)
Definition save_expenses : M float bool :=
  try_except
    (do path <- get_data_file;
     run open_w path;
     do es <- get_expenses;
     run write path (JsonDoc es);
     ret true)
    is_Exception
    (fun e =>
       run print ("Error saving expenses: " +:+ exn_str e);
       ret false).

(** ** ExpenseTrackerCLI: export and import *)

Definition fieldnames : list string :=
  ["id"; "amount"; "category"; "description"; "date"; "created_at"].

(** [writer.writerow(expense)] writes the six values in column order. *)
Definition csv_row_of (exp : Expense float) : chunk :=
  CsvRow [CStr (id exp); CNum (amount exp); CStr (category exp);
          CStr (description exp); CStr (date exp); CStr (created_at exp)].

Fixpoint write_rows (path : string) (es : list (Expense float)) : M float unit :=
  match es with
  | [] => ret tt
  | expense :: rest => run write path (csv_row_of expense); write_rows path rest
  end.

(** [export_expenses]; the [return] of the empty case leaves the [with]
    block, which closes the file that [open] has already created. *)
Definition export_expenses (today : string) (filename : option string)
    : M float unit :=
  let default_name := "expenses_export_" +:+ today +:+ ".csv" in
  let filename :=
    match filename with
    | Some name => if PyStr.falsy name then default_name else name
    | None => default_name
    end in
  try_except
    (run open_w filename;
     do es <- get_expenses;
     match es with
     | [] => print "No expenses to save"
     | _ =>
         run write filename (CsvRow (map CStr fieldnames));
         run write_rows filename es;
         print ("Expenses saved to " +:+ filename)
     end)
    is_Exception
    (fun e => print (" Save failed: " +:+ exn_str e)).

(** What reading the import file yields: [open] raises, or the reader
    splits the text into records (lists of fields, the header first) and
    may raise after the last one it delivers. *)
Inductive csv_source : Type :=
  | COpenError (e : exn)
  | CRecords (records : list (list string)) (failure : option exn).

(** A row of [csv.DictReader]: a missing trailing field is [None]. *)
Abbreviation row := (gmap string (option string)).

(** [dict(zip(fieldnames, record))], then [None] for the field names that
    the record is too short for. A later duplicate of a name wins. *)
Definition dict_row (names : list string) (record : list string) : row :=
  let d := fold_left (fun d kv => <[kv.1 := Some kv.2]> d) (zip names record) ∅ in
  fold_left (fun d key => <[key := None]> d) (drop (length record) names) d.

(** The rows that the reader yields: the first record gives the field
    names and empty records are skipped. *)
Definition dict_reader (records : list (list string)) : list row :=
  match records with
  | [] => []
  | names :: rest =>
      map (dict_row names) (filter (fun record => record ≠ []) rest)
  end.

Definition required : list string :=
  ["id"; "amount"; "category"; "description"; "date"].

(** [all(key in row for key in required)] *)
Definition has_required (r : row) : bool :=
  forallb (fun key => bool_decide (is_Some (r !! key))) required.

(** [row[key]]; the loop only reads keys that it has found present. *)
Definition item (r : row) (key : string) : option string :=
  default None (r !! key).

(** [float(v)] on a field: [None] is not a string. *)
Definition float_of_field (v : option string) : M float float :=
  match v with
  | Some s =>
      match PyFloat.float_of_str s with
      | Some x => ret x
      | None => raise ValueError
      end
  | None => raise TypeError
  end.

(** [v.strip()] on a field. *)
Definition strip_field (v : option string) : M float string :=
  match v with
  | Some s => ret (PyStr.strip s)
  | None => raise AttributeError
  end.

(** A field stored as it is. For a line that is too short the code stores
    [None] here and goes on; a record has no place for [None], so the run
    leaves the typed model ([IllTyped]) and the properties below say
    nothing about what the code does with such a line. *)
Definition str_field (v : option string) : M float string :=
  match v with
  | Some s => ret s
  | None => ill_typed
  end.

(** The text of a field inside a message. *)
Definition show_field (v : option string) : string := default "None" v.

(** The body of the [for] loop of [import_expenses], from row number [i]
    on. The result is [None] after the early [return] and otherwise the
    list [imported_expenses]. [now i] is the clock reading taken for row
    [i]. The two [strip] calls are the only steps of the dictionary display
    that can raise, so they come first here. *)
Fixpoint import_rows (now : nat -> string) (i : nat) (rows : list row)
    (imported_expenses : list (Expense float))
    : M float (option (list (Expense float))) :=
  match rows with
  | [] => ret (Some imported_expenses)
  | r :: rest =>
      if negb (has_required r) then
        run print " Invalid CSV format - missing required columns";
        ret None
      else
        do checked <-
          try_except
            (do amount <- float_of_field (item r "amount");
             if PrimFloat.leb amount 0 then
               run print (" Skipping invalid amount: " +:+ show_field (item r "amount"));
               ret None
             else ret (Some amount))
            (fun e => match e with ValueError => true | _ => false end)
            (fun _ =>
               run print (" Skipping invalid amount: " +:+ show_field (item r "amount"));
               ret None);
        match checked with
        | None => import_rows now (S i) rest imported_expenses
        | Some amount =>
            do cat <- strip_field (item r "category");
            do desc <- strip_field (item r "description");
            do row_id <- str_field (item r "id");
            do row_date <- str_field (item r "date");
            do created <- str_field (default (Some (now i)) (r !! "created_at"));
            let expense := mkExpense row_id amount cat desc row_date created in
            import_rows now (S i) rest (imported_expenses ++ [expense])
        end
  end.

(** [import_expenses] *)
Definition import_expenses (now : nat -> string) (filename : string)
    (src : csv_source) : M float unit :=
  try_except
    (do result <-
       match src with
       | COpenError e => raise e
       | CRecords records failure =>
           do result <- import_rows now 0 (dict_reader records) [];
           match result, failure with
           | Some _, Some e => raise e
           | _, _ => ret result
           end
       end;
     match result with
     | None => ret tt
     | Some [] => print "No valid expenses found in CSV file"
     | Some imported_expenses =>
         do es <- get_expenses;
         run set_expenses (es ++ imported_expenses);
         do saved <- save_expenses;
         if saved : bool then
           print ("Added " +:+ pretty (length imported_expenses) +:+
                  " expenses successfully!")
         else print " Failed to save imported expenses"
     end)
    is_Exception
    (fun e =>
       match e with
       | FileNotFoundError => print (" File '" +:+ filename +:+ "' not found")
       | CsvError => print (" CSV file error: " +:+ exn_str e)
       | _ => print (" Import failed: " +:+ exn_str e)
       end).

(** * Vocabulary of the properties *)

(** [a] may stand before [b] in descending key order. *)
Definition desc {X : Type} (key : X -> string) (a b : X) : Prop :=
  String.leb (key b) (key a) = true.

(** A computation that returns a value and hands back the state it got. *)
Definition read_only {A X : Type} (m : M A X) : Prop :=
  forall w, exists x, m w = (Ok x, w).

(** One pass of the loop of [get_summary]. *)
Definition tally_step {A : Type} `{Number A} (d : Py.dict A)
    (exp : Expense A) : Py.dict A :=
  Py.dict_set d (category exp)
    (add (Py.dict_get d (category exp) zero) (amount exp)).

(** A store of two exact amounts, 12.50 and 7.25, in two categories. *)
Definition exact_world : World Q :=
  mkWorld "expenses.json"
    [mkExpense "a1" (25 # 2)%Q "Food" "Lunch" "2024-01-15" "2024-01-15T12:00:00";
     mkExpense "b2" (29 # 4)%Q "Bus" "Ticket" "2024-01-16" "2024-01-16T08:00:00"]
    ∅ [].

(** Three float amounts: 1.0 in one category, then 1.0 and 2^53 in
    another. Every partial sum of the total is exact, so the total is
    2^53 + 2; the second category total rounds 1 + 2^53 to 2^53. *)
Definition rounding_world : World float :=
  mkWorld "expenses.json"
    [mkExpense "a1" 1%float "Bus" "Ticket" "2024-01-15" "2024-01-15T08:00:00";
     mkExpense "b2" 1%float "Rent" "Deposit" "2024-01-16" "2024-01-16T08:00:00";
     mkExpense "c3" 9007199254740992%float "Rent" "Flat" "2024-01-17"
       "2024-01-17T08:00:00"]
    ∅ [].

(** [x > 0], and [x] ordered with respect to zero: exactly one of [0 < x]
    and [x <= 0] holds, as for every float but NaN. *)
Definition positive (x : float) : Prop := PrimFloat.ltb 0 x = true.

Definition comparable (x : float) : Prop :=
  PrimFloat.ltb 0 x = negb (PrimFloat.leb x 0).

(** Unfolds the operations of the monad. *)
Ltac unfold_monad :=
  unfold try_except, bind, ret, raise, ill_typed, get_expenses, set_expenses,
    get_data_file, get_fs, set_fs, print.

(** A world with an empty store and no files. *)
Definition fresh_world : World float := mkWorld "expenses.json" [] ∅ [].

(** The same, with an earlier export still on disk. *)
Definition world_with_old_export : World float :=
  mkWorld "expenses.json" []
    {[ "out.csv" := File true [Raw "id,amount,category,description,date,created_at"] ]}
    [].

(** A date of the shape [YYYY-MM-DD]. *)
Definition is_digit (c : ascii) : bool :=
  match PyFloat.digit_val c with Some _ => true | None => false end.

Definition is_iso_date (s : string) : bool :=
  match s with
  | String y1 (String y2 (String y3 (String y4 (String "-"
      (String m1 (String m2 (String "-" (String d1 (String d2 EmptyString))))))))) =>
      forallb is_digit [y1; y2; y3; y4; m1; m2; d1; d2]
  | _ => false
  end.

(** The part of the invariant that [validate_expense] stands for. *)
Definition checked (exp : Expense float) : Prop :=
  positive (amount exp) /\ category exp ≠ "" /\ description exp ≠ "".

(** The invariant of the data model. *)
Definition well_formed (exp : Expense float) : Prop :=
  checked exp /\ is_iso_date (date exp) = true.

(** No value of a row is [None]. *)
Definition full (d : row) : Prop :=
  forall k v, d !! k = Some v -> is_Some v.

(** The state after printing some lines. *)
Definition printed (w : World float) (lines : list string) : World float :=
  mkWorld (data_file w) (expenses w) (fs w) (stdout w ++ lines).

(** The amount of a row, when its text parses. *)
Definition row_amount (r : row) : option float :=
  match item r "amount" with
  | Some s => PyFloat.float_of_str s
  | None => None
  end.

(** The rows that pass the test of the loop, and the rows whose amount
    parses to a number greater than zero. *)
Definition accepted (r : row) : bool :=
  match row_amount r with
  | Some x => negb (PrimFloat.leb x 0)
  | None => false
  end.

Definition valid (r : row) : bool :=
  match row_amount r with
  | Some x => PrimFloat.ltb 0 x
  | None => false
  end.

(** The record that the loop builds from a row. *)
Definition built_from (now : nat -> string) (r : row) (exp : Expense float)
    : Prop :=
  row_amount r = Some (amount exp) /\
  item r "id" = Some (id exp) /\
  PyStr.strip <$> item r "category" = Some (category exp) /\
  PyStr.strip <$> item r "description" = Some (description exp) /\
  item r "date" = Some (date exp) /\
  match r !! "created_at" with
  | Some v => v = Some (created_at exp)
  | None => exists i, created_at exp = now i
  end.

(** A clock that always reads noon. *)
Definition noon (i : nat) : string := "2024-01-15T12:00:00".

(** A table with the six columns: one good line, an empty line, a line
    with a negative amount and a line whose amount is no number. *)
Definition sample_header : list string :=
  ["id"; "amount"; "category"; "description"; "date"; "created_at"].

Definition sample_lines : list (list string) :=
  [["a1"; "50"; " Food "; "Lunch"; "2024-01-15"; "2024-01-15T12:00:00"];
   [];
   ["b2"; "-5"; "Bus"; "Ticket"; "2024-01-16"; "2024-01-16T08:00:00"];
   ["c3"; "abc"; "Rent"; "Flat"; "2024-01-17"; "2024-01-17T08:00:00"]].

(** ** Vocabulary of the further properties *)

(** A text of white space only. *)
Fixpoint all_space (s : string) : bool :=
  match s with
  | String c r => PyStr.is_space c && all_space r
  | EmptyString => true
  end.

(** The first and the last character of a text. *)
Definition first_char (s : string) : option ascii :=
  match s with String c _ => Some c | EmptyString => None end.

Fixpoint last_char (s : string) : option ascii :=
  match s with
  | String c EmptyString => Some c
  | String _ r => last_char r
  | EmptyString => None
  end.

(** A text that neither starts nor ends with white space. *)
Definition trimmed (s : string) : Prop :=
  (forall c, first_char s = Some c -> PyStr.is_space c = false) /\
  (forall c, last_char s = Some c -> PyStr.is_space c = false).

(** [t] is [s] without the white space around it. *)
Definition trim_of (s t : string) : Prop :=
  trimmed t /\
  exists before after,
    s = before +:+ t +:+ after /\
    all_space before = true /\ all_space after = true.

(** Strictly ascending order of strings. *)
Definition asc (a b : string) : Prop := String.ltb a b = true.

(** Unfolds the operations of the monad in a hypothesis. *)
Ltac unfold_monad_in H :=
  unfold try_except, bind, ret, raise, ill_typed, get_expenses, set_expenses,
    get_data_file, get_fs, set_fs, print in H.

(** The messages of [validate_expense], in the order of its tests. *)
Definition validation_messages : list string :=
  ["Amount must be a valid number"; "Amount must be positive";
   "Category is required"; "Description is required"].

(** The exception that [open(path, 'w')] raises in a file system, if
    any. *)
Definition open_w_error (files : gmap string node) (path : string)
    : option exn :=
  if PyStr.falsy path then Some FileNotFoundError
  else
    match files !! path with
    | Some Directory => Some IsADirectoryError
    | Some (File false _) => Some PermissionError
    | _ => None
    end.



(** The test that the import loop applies to an amount. *)
Definition passed (exp : Expense float) : Prop :=
  PrimFloat.leb (amount exp) 0 = false.

(** Brings a state that was printed to several times into the form of one
    record. *)
Ltac settle_world :=
  cbn beta iota delta [data_file expenses fs stdout printed];
  rewrite <- ?app_assoc.

(** ** [f"{x:.2f}"] *)

(** A float with two digits after the point: the value, which is exactly
    [m * 2^e], is rounded to the nearest hundredth, ties to even; the
    sign is kept, also on zero. *)
Module PyFormat.

(** [n / d] rounded to the nearest integer, ties to even; [d > 0]. *)
Definition div_nearest_even (n d : Z) : Z :=
  let q := (n / d)%Z in
  let r := (n mod d)%Z in
  match (2 * r ?= d)%Z with
  | Lt => q
  | Gt => (q + 1)%Z
  | Eq => if Z.even q then q else (q + 1)%Z
  end.

(** The number of hundredths in [m * 2^e]. *)
Definition hundredths (m : BinNums.positive) (e : Z) : Z :=
  if (0 <=? e)%Z then (Zpos m * 2 ^ e * 100)%Z
  else div_nearest_even (Zpos m * 100) (2 ^ (- e)).

Definition two_digits (n : Z) : string :=
  if (n <? 10)%Z then "0" +:+ pretty (Z.to_N n) else pretty (Z.to_N n).

Definition minus (negative : bool) : string :=
  if negative then "-" else "".

Definition format_2f (x : float) : string :=
  match Prim2SF x with
  | S754_nan => "nan"
  | S754_infinity negative => minus negative +:+ "inf"
  | S754_zero negative => minus negative +:+ "0.00"
  | S754_finite negative m e =>
      let h := hundredths m e in
      minus negative +:+ pretty (Z.to_N (h / 100)) +:+ "." +:+
      two_digits (h mod 100)
  end.

End PyFormat.

(** ** ExpenseTrackerCLI: manual entry *)

(** What a call of [input] gives: the line that was typed, an interrupt
    from the keyboard ([KeyboardInterrupt]) or the end of the input
    ([EOFError]). The prompt that [input] shows is not a printed line. *)
Inductive typed : Type :=
  | Line (s : string)
  | Interrupt
  | EndOfInput.

(** The first [n] calls of [input], answered from a list; an exhausted
    list is the end of the input. *)
Fixpoint read_lines (n : nat) (answers : list typed) : list string + typed :=
  match n with
  | 0 => inl []
  | S n' =>
      match answers with
      | Line s :: rest =>
          match read_lines n' rest with
          | inl lines => inl (s :: lines)
          | inr stop => inr stop
          end
      | Interrupt :: _ => inr Interrupt
      | _ => inr EndOfInput
      end
  end.

(** The line feed and ["=" * 50]. *)
Definition newline : string := String (ascii_of_nat 10) EmptyString.

Definition rule : string :=
  "==================================================".

(** [print_header] *)
Definition print_header (title : string) : M float unit :=
  run print (newline +:+ rule);
  run print ("  " +:+ title +:+ "  ");
  print rule.

(** [print_expense_details] *)
Definition print_expense_details (expense : Expense float) : M float unit :=
  run print ("  ID: " +:+ id expense);
  run print ("  Amount: ₹" +:+ PyFormat.format_2f (amount expense));
  run print ("  Category: " +:+ category expense);
  run print ("  Description: " +:+ description expense);
  print ("  Date: " +:+ date expense).

(** The loop that prints the validation errors. *)
Fixpoint print_errors (errors : list string) : M float unit :=
  match errors with
  | [] => ret tt
  | error :: rest => run print ("  - " +:+ error); print_errors rest
  end.

(** [add_expense_manually]; [answers] are the answers to its four calls
    of [input]. *)
Definition add_expense_manually (uuid4 today now : string)
    (answers : list typed) : M float unit :=
  run print_header "Add Expense Manually";
  match read_lines 4 answers with
  | inl [amount; category; description; date_input] =>
      let amount := PyStr.strip amount in
      let category := PyStr.strip category in
      let description := PyStr.strip description in
      let date_input := PyStr.strip date_input in
      try_except
        (let date_input :=
           if PyStr.falsy date_input then today else date_input in
         let errors := validate_expense amount category description in
         match errors with
         | _ :: _ =>
             run print "Validation errors:";
             print_errors errors
         | [] =>
             do x <- match PyFloat.float_of_str amount with
                     | Some x => ret x
                     | None => raise ValueError
                     end;
             do expense <- add_expense uuid4 today now x category description
                             (Some date_input);
             do saved <- save_expenses;
             if saved : bool then
               run print " Expense added successfully!";
               print_expense_details expense
             else print " Failed to save expense"
         end)
        is_Exception
        (fun e => print ("Error: " +:+ exn_str e))
  | inr Interrupt => print (newline +:+ "Operation cancelled")
  | _ => print "Error: EOF when reading a line"
  end.

(** The three lines of a header. *)
Definition header_lines (title : string) : list string :=
  [newline +:+ rule; "  " +:+ title +:+ "  "; rule].

(** The lines that [print_expense_details] prints. *)
Definition detail_lines (expense : Expense float) : list string :=
  ["  ID: " +:+ id expense;
   "  Amount: ₹" +:+ PyFormat.format_2f (amount expense);
   "  Category: " +:+ category expense;
   "  Description: " +:+ description expense;
   "  Date: " +:+ date expense].

(** The record that a manual entry adds. *)
Definition entered (uuid4 today now : string) (x : float)
    (category description date_input : string) : Expense float :=
  mkExpense (short_id uuid4) x (PyStr.strip category) (PyStr.strip description)
    (if PyStr.falsy (PyStr.strip date_input) then today
     else PyStr.strip date_input)
    now.

(** ** ExpenseTrackerCLI: the category listing *)

(** The loop of [list_categories]. *)
Fixpoint list_category_lines (categories : list string) : M float unit :=
  match categories with
  | [] => ret tt
  | cat :: rest =>
      do selected <- get_expenses_by_category cat;
      let count := length selected in
      do selected_again <- get_expenses_by_category cat;
      let total := Py.sum (map amount selected_again) in
      run print ("  " +:+ cat +:+ ": " +:+ pretty count +:+ " expenses, ₹" +:+
                 PyFormat.format_2f total);
      list_category_lines rest
  end.

(** [list_categories] *)
Definition list_categories : M float unit :=
  do categories <- get_categories;
  match categories with
  | [] => print "No categories found."
  | _ =>
      run print_header "Categories";
      list_category_lines categories
  end.

(** The records that a line of the listing counts: those whose category
    is the listed one up to letter case. *)
Definition counted_under (es : list (Expense float)) (cat : string)
    : list (Expense float) :=
  filter (fun exp => PyStr.lower (category exp) = PyStr.lower cat) es.

(** A line of the listing. *)
Definition category_line (es : list (Expense float)) (cat : string) : string :=
  "  " +:+ cat +:+ ": " +:+ pretty (length (counted_under es cat)) +:+
  " expenses, ₹" +:+
  PyFormat.format_2f (Py.sum (map amount (counted_under es cat))).




(** * Properties *)

(** ** Lists and filters *)

Section FilterFacts.
Context {X : Type} (P : X -> Prop) `{!∀ x, Decision (P x)}.

(** A filter and its complement split the list. *)
Lemma filter_split_length (l : list X) :
  length l = length (filter (fun x => ¬ P x) l) + length (filter P l).
Proof.
  induction l as [|x l IH]; [done|].
  rewrite !filter_cons.
  destruct (decide (P x)) as [HP|HP].
  - rewrite decide_False by tauto. cbn. lia.
  - rewrite decide_True by tauto. cbn. lia.
Qed.

(** Nothing is dropped when nothing matches. *)
Lemma filter_none_id (l : list X) :
  filter P l = [] -> filter (fun x => ¬ P x) l = l.
Proof.
  induction l as [|x l IH]; [done|].
  rewrite !filter_cons.
  destruct (decide (P x)) as [HP|HP]; [done|].
  intros Hnil. rewrite decide_True by tauto. by rewrite IH.
Qed.
End FilterFacts.

(** ** delete *)

(** C4. [delete_expense] keeps, in order, exactly the records whose id
    differs from the given one, so the [k] matching records are the ones
    removed; it returns [True] exactly when a record matched, which is
    exactly when the list became shorter; with no match it returns
    [False] and the list is the same. Nothing else of the state changes. *)
Theorem delete_expense_exact {A : Type} (expense_id : string) (w : World A) :
  let kept := filter (fun exp => id exp ≠ expense_id) (expenses w) in
  let matching := filter (fun exp => id exp = expense_id) (expenses w) in
  exists w',
    delete_expense expense_id w = (Ok (bool_decide (matching ≠ [])), w') /\
    expenses w' = kept /\
    data_file w' = data_file w /\ fs w' = fs w /\ stdout w' = stdout w /\
    length (expenses w) = length (expenses w') + length matching /\
    (bool_decide (matching ≠ []) = true <->
       length (expenses w') < length (expenses w)) /\
    (matching = [] -> expenses w' = expenses w).
Proof.
  intros kept matching.
  assert (Hlen : length (expenses w) = length kept + length matching)
    by apply (filter_split_length (fun exp : Expense A => id exp = expense_id)).
  assert (Hres : (length kept <? length (expenses w))%nat
                 = bool_decide (matching ≠ [])).
  { destruct (Nat.ltb_spec (length kept) (length (expenses w))) as [Hlt|Hge];
      symmetry.
    - apply bool_decide_eq_true. intros Hnil. rewrite Hnil in Hlen.
      cbn in Hlen. lia.
    - apply bool_decide_eq_false. intros Hne. destruct matching; [done|].
      cbn in Hlen. lia. }
  exists (mkWorld (data_file w) kept (fs w) (stdout w)). split.
  - unfold delete_expense, bind, get_expenses, set_expenses, ret.
    fold kept. by rewrite <- Hres.
  - rewrite <- Hres, Nat.ltb_lt. repeat split; try done.
    intros Hnil. by apply filter_none_id.
Qed.

(** ** The order on strings *)

Section StringOrder.

Lemma ascii_compare_N (a b : ascii) :
  Ascii.compare a b = N.compare (N_of_ascii a) (N_of_ascii b).
Proof. reflexivity. Qed.

Lemma ascii_compare_Eq (a b : ascii) :
  Ascii.compare a b = Eq <-> a = b.
Proof.
  split; [apply Ascii.compare_eq_iff|].
  intros ->. rewrite ascii_compare_N. apply N.compare_refl.
Qed.

(** [<=] on strings is transitive. *)
Lemma compare_not_Gt_trans (a b c : string) :
  String.compare a b ≠ Gt -> String.compare b c ≠ Gt ->
  String.compare a c ≠ Gt.
Proof.
  revert b c. induction a as [|x a IH]; intros [|y b] [|z c]; cbn; try done.
  destruct (Ascii.compare x y) eqn:Hxy; try done.
  - apply ascii_compare_Eq in Hxy as ->.
    destruct (Ascii.compare y z); try done. apply IH.
  - intros _. destruct (Ascii.compare y z) eqn:Hyz; try done.
    + apply ascii_compare_Eq in Hyz as <-. by rewrite Hxy.
    + intros _. rewrite ascii_compare_N in Hxy, Hyz.
      apply N.compare_lt_iff in Hxy. apply N.compare_lt_iff in Hyz.
      pose proof (N.lt_trans _ _ _ Hxy Hyz) as Hxz.
      apply N.compare_lt_iff in Hxz.
      rewrite ascii_compare_N. by rewrite Hxz.
Qed.

Lemma leb_trans (a b c : string) :
  String.leb a b = true -> String.leb b c = true -> String.leb a c = true.
Proof.
  unfold String.leb. intros Hab Hbc.
  pose proof (compare_not_Gt_trans a b c) as Ht.
  destruct (String.compare a b), (String.compare b c), (String.compare a c);
    try done; exfalso; by apply Ht.
Qed.

(** When [a < b] fails, [b <= a] holds. *)
Lemma ltb_false_leb (a b : string) :
  String.ltb a b = false -> String.leb b a = true.
Proof.
  unfold String.ltb, String.leb. rewrite (String.compare_antisym b a).
  by destruct (String.compare a b).
Qed.

Lemma ltb_true_leb (a b : string) :
  String.ltb a b = true -> String.leb a b = true.
Proof.
  unfold String.ltb, String.leb. by destruct (String.compare a b).
Qed.

Lemma ltb_irrefl (a : string) : String.ltb a a = false.
Proof.
  unfold String.ltb. pose proof (String.compare_antisym a a) as H.
  by destruct (String.compare a a).
Qed.

End StringOrder.

(** ** [sorted(..., reverse=True)] *)

Section SortedReverse.
Context {X : Type} (key : X -> string).

Lemma insert_desc_perm (x : X) (l : list X) :
  Py.insert_desc key x l ≡ₚ x :: l.
Proof.
  induction l as [|y r IH]; cbn; [done|].
  destruct (String.ltb (key x) (key y)); [|done].
  rewrite IH. apply Permutation_swap.
Qed.

Lemma sorted_reverse_cons (x : X) (l : list X) :
  Py.sorted_reverse key (x :: l)
  = Py.insert_desc key x (Py.sorted_reverse key l).
Proof. reflexivity. Qed.

Lemma sorted_reverse_perm (l : list X) : Py.sorted_reverse key l ≡ₚ l.
Proof.
  induction l as [|x l IH]; [done|].
  by rewrite sorted_reverse_cons, insert_desc_perm, IH.
Qed.

Lemma insert_desc_sorted (x : X) (l : list X) :
  StronglySorted (desc key) l -> StronglySorted (desc key) (Py.insert_desc key x l).
Proof.
  induction 1 as [|y r Hr IH Hy]; cbn.
  - by repeat constructor.
  - destruct (String.ltb (key x) (key y)) eqn:Hlt.
    + constructor; [done|].
      rewrite insert_desc_perm. constructor; [|done].
      by apply ltb_true_leb.
    + apply ltb_false_leb in Hlt.
      constructor; [by constructor|].
      constructor; [done|].
      eapply Forall_impl; [exact Hy|].
      intros z Hz. unfold desc in *. by eapply leb_trans.
Qed.

Lemma sorted_reverse_sorted (l : list X) :
  StronglySorted (desc key) (Py.sorted_reverse key l).
Proof.
  induction l as [|x l IH]; [constructor|].
  rewrite sorted_reverse_cons. by apply insert_desc_sorted.
Qed.

(** Insertion only passes items with a strictly greater key, so the
    items of any one key keep their order. *)
Lemma insert_desc_stable (t : string) (x : X) (l : list X) :
  filter (fun e => key e = t) (Py.insert_desc key x l)
  = filter (fun e => key e = t) (x :: l).
Proof.
  induction l as [|y r IH]; cbn; [done|].
  destruct (String.ltb (key x) (key y)) eqn:Hlt; [|done].
  rewrite (filter_cons _ y), IH, !filter_cons.
  destruct (decide (key y = t)) as [Hy|Hy], (decide (key x = t)) as [Hx|Hx];
    try done.
  rewrite Hx, Hy, ltb_irrefl in Hlt. done.
Qed.

Lemma sorted_reverse_stable (t : string) (l : list X) :
  filter (fun e => key e = t) (Py.sorted_reverse key l)
  = filter (fun e => key e = t) l.
Proof.
  induction l as [|x l IH]; [done|].
  rewrite sorted_reverse_cons, insert_desc_stable, !filter_cons.
  by rewrite IH.
Qed.

(** A descending, stable arrangement of a list is unique, so every stable
    sort (the one of Python included) returns what [sorted_reverse]
    returns. *)
Lemma stable_desc_unique (l1 l2 : list X) :
  StronglySorted (desc key) l1 -> StronglySorted (desc key) l2 ->
  (forall t, filter (fun e => key e = t) l1 = filter (fun e => key e = t) l2) ->
  l1 = l2.
Proof.
  revert l2. induction l1 as [|x l1 IH]; intros [|y l2] H1 H2 Hf; [done|..].
  - specialize (Hf (key y)). by rewrite filter_cons_True in Hf.
  - specialize (Hf (key x)). by rewrite filter_cons_True in Hf.
  - apply StronglySorted_inv in H1 as [H1 Hx], H2 as [H2 Hy].
    assert (Hkey : key x = key y).
    { destruct (decide (key x = key y)) as [|Hne]; [done|].
      apply String.leb_antisym.
      - pose proof (Hf (key x)) as Hfx.
        rewrite filter_cons_True, (filter_cons_False _ y) in Hfx by done.
        assert (Hin : x ∈ filter (fun e => key e = key x) l2)
          by (rewrite <- Hfx; apply list_elem_of_here).
        apply list_elem_of_filter in Hin as [_ Hin].
        by eapply Forall_forall in Hy.
      - pose proof (Hf (key y)) as Hfy.
        rewrite (filter_cons_True _ y), filter_cons_False in Hfy by done.
        assert (Hin : y ∈ filter (fun e => key e = key y) l1)
          by (rewrite Hfy; apply list_elem_of_here).
        apply list_elem_of_filter in Hin as [_ Hin].
        by eapply Forall_forall in Hx. }
    pose proof (Hf (key x)) as Hhead.
    rewrite filter_cons_True, (filter_cons_True _ y) in Hhead by done.
    injection Hhead as -> Htail.
    f_equal. apply IH; [done|done|]. intros t.
    destruct (decide (key y = t)) as [<-|Hne]; [done|].
    specialize (Hf t). by rewrite !filter_cons_False in Hf.
Qed.

End SortedReverse.

(** ** listAll *)

(** C7. [get_all_expenses] returns all the records (a permutation of the
    store), in descending order of [created_at], and the records of any
    one [created_at] value appear in the order they have in the store. *)
Theorem get_all_expenses_sorted_stable {A : Type} (w : World A) :
  exists out,
    get_all_expenses w = (Ok out, w) /\
    out ≡ₚ expenses w /\
    StronglySorted
      (fun a b => String.leb (created_at b) (created_at a) = true) out /\
    forall t : string,
      filter (fun exp => created_at exp = t) out
      = filter (fun exp => created_at exp = t) (expenses w).
Proof.
  exists (Py.sorted_reverse created_at (expenses w)).
  split; [reflexivity|]. split; [apply sorted_reverse_perm|].
  split; [apply (sorted_reverse_sorted created_at)|].
  intros t. apply sorted_reverse_stable.
Qed.

(** ** Queries do not write *)

Section ReadOnly.
Context {A : Type}.

Lemma read_only_ret {X} (x : X) : read_only (A := A) (ret x).
Proof. intros w. by exists x. Qed.

Lemma read_only_get_expenses : read_only (A := A) get_expenses.
Proof. intros w. by eexists. Qed.

Lemma read_only_bind {X Y} (m : M A X) (k : X -> M A Y) :
  read_only m -> (forall x, read_only (k x)) -> read_only (bind m k).
Proof.
  intros Hm Hk w. destruct (Hm w) as [x Hx]. destruct (Hk x w) as [y Hy].
  exists y. unfold bind. by rewrite Hx.
Qed.

Lemma read_only_state {X} (m : M A X) (w : World A) :
  read_only m -> (m w).2 = w.
Proof. intros Hm. destruct (Hm w) as [x ->]. done. Qed.

End ReadOnly.

Create HintDb read_only.
#[export] Hint Resolve read_only_ret read_only_get_expenses : read_only.
#[export] Hint Extern 2 (read_only (bind _ _)) =>
  apply read_only_bind; [|intros ?] : read_only.

Section QueriesReadOnly.
Context {A : Type} `{Number A}.

Lemma get_all_expenses_read_only : read_only (A := A) get_all_expenses.
Proof. unfold get_all_expenses. auto with read_only. Qed.

Lemma get_expenses_by_category_read_only (cat : string) :
  read_only (A := A) (get_expenses_by_category cat).
Proof. unfold get_expenses_by_category. auto with read_only. Qed.

Lemma get_expenses_by_date_range_read_only (start_date end_date : string) :
  read_only (A := A) (get_expenses_by_date_range start_date end_date).
Proof. unfold get_expenses_by_date_range. auto with read_only. Qed.

Lemma get_summary_read_only : read_only (A := A) get_summary.
Proof.
  unfold get_summary. apply read_only_bind; [auto with read_only|].
  intros [|exp es]; auto with read_only.
Qed.

Lemma get_categories_read_only : read_only (A := A) get_categories.
Proof. unfold get_categories. auto with read_only. Qed.

End QueriesReadOnly.

(** C9. The five queries return normally and leave the state as it was:
    the same records in the same order, and the same files and output.
    In particular [get_all_expenses] sorts a copy. *)
Theorem queries_leave_store_unchanged {A : Type} `{Number A}
    (w : World A) (cat start_date end_date : string) :
  (exists out, get_all_expenses w = (Ok out, w)) /\
  (exists out, get_expenses_by_category cat w = (Ok out, w)) /\
  (exists out, get_expenses_by_date_range start_date end_date w = (Ok out, w)) /\
  (exists out, get_summary w = (Ok out, w)) /\
  (exists out, get_categories w = (Ok out, w)) /\
  expenses (get_all_expenses w).2 = expenses w.
Proof.
  split; [apply get_all_expenses_read_only|].
  split; [apply get_expenses_by_category_read_only|].
  split; [apply get_expenses_by_date_range_read_only|].
  split; [apply get_summary_read_only|].
  split; [apply get_categories_read_only|].
  by rewrite (read_only_state _ _ get_all_expenses_read_only).
Qed.

(** ** Filters keep the store order *)

(** C10. The two filters return normally, do not change the state, and
    return the matching records as a subsequence of the store, in store
    order: the result is the store with the other records left out. It is
    not sorted by [created_at]: for a store whose two records were created
    in ascending time order, both filters return them oldest first while
    [get_all_expenses] returns them newest first. *)
Theorem filters_keep_store_order :
  (forall (A : Type) (w : World A) (cat start_date end_date : string),
     exists by_cat by_date,
       get_expenses_by_category cat w = (Ok by_cat, w) /\
       get_expenses_by_date_range start_date end_date w = (Ok by_date, w) /\
       sublist by_cat (expenses w) /\
       sublist by_date (expenses w) /\
       (forall exp,
          exp ∈ by_cat <->
          exp ∈ expenses w /\ PyStr.lower (category exp) = PyStr.lower cat) /\
       (forall exp,
          exp ∈ by_date <->
          exp ∈ expenses w /\
          PyStr.le start_date (date exp) = true /\
          PyStr.le (date exp) end_date = true) /\
       by_cat = filter (fun exp => PyStr.lower (category exp) = PyStr.lower cat)
                  (expenses w) /\
       by_date = filter (fun exp => PyStr.le start_date (date exp) &&
                                    PyStr.le (date exp) end_date = true)
                   (expenses w)) /\
  (let first := mkExpense "a1" 10%float "Food" "Lunch" "2024-01-15"
                  "2024-01-15T12:00:00" in
   let second := mkExpense "b2" 20%float "food" "Dinner" "2024-01-16"
                   "2024-01-16T19:00:00" in
   let w := mkWorld "expenses.json" [first; second] ∅ [] in
   get_expenses_by_category "FOOD" w = (Ok [first; second], w) /\
   get_expenses_by_date_range "2024-01-01" "2024-01-31" w
     = (Ok [first; second], w) /\
   get_all_expenses w = (Ok [second; first], w)).
Proof.
  split.
  - intros A w cat start_date end_date.
    eexists _, _. split; [reflexivity|]. split; [reflexivity|].
    split; [apply sublist_filter|]. split; [apply sublist_filter|].
    split; [|split; [|done]].
    + intros exp. rewrite list_elem_of_filter. tauto.
    + intros exp. rewrite list_elem_of_filter, andb_true_iff. tauto.
  - cbn zeta. split; [|split]; vm_compute; reflexivity.
Qed.

(** ** Dictionaries *)

Section DictFacts.
Context {V : Type}.
Implicit Types (d : Py.dict V) (k c : string) (v : V).

Lemma dict_get_set d k c v default :
  Py.dict_get (Py.dict_set d k v) c default
  = if decide (k = c) then v else Py.dict_get d c default.
Proof.
  induction d as [|[k' v'] r IH]; cbn.
  - destruct (String.eqb_spec k c), (decide (k = c)); done.
  - destruct (String.eqb_spec k' k) as [->|Hk]; cbn.
    + destruct (String.eqb_spec k c), (decide (k = c)); done.
    + destruct (String.eqb_spec k' c) as [->|Hc]; [|done].
      by rewrite decide_False by done.
Qed.

Lemma dict_keys_set d k v :
  Py.dict_keys (Py.dict_set d k v)
  = if decide (k ∈ Py.dict_keys d) then Py.dict_keys d
    else Py.dict_keys d ++ [k].
Proof.
  unfold Py.dict_keys.
  induction d as [|[k' v'] r IH]; cbn.
  - rewrite decide_False; [done|]. apply not_elem_of_nil.
  - destruct (String.eqb_spec k' k) as [->|Hk]; cbn.
    + rewrite decide_True; [done|]. apply list_elem_of_here.
    + rewrite IH. destruct (decide (k ∈ map fst r)) as [Hin|Hin].
      * rewrite decide_True; [done|]. by apply list_elem_of_further.
      * rewrite decide_False; [done|].
        rewrite elem_of_cons. intros [Heq|Hin']; [by apply Hk|by apply Hin].
Qed.

Lemma dict_keys_set_NoDup d k v :
  NoDup (Py.dict_keys d) -> NoDup (Py.dict_keys (Py.dict_set d k v)).
Proof.
  intros Hd. rewrite dict_keys_set. case_decide; [done|].
  apply NoDup_app. split; [done|]. split; [|apply NoDup_singleton].
  intros x Hx ->%list_elem_of_singleton. done.
Qed.

Lemma dict_keys_set_elem d k v c :
  c ∈ Py.dict_keys (Py.dict_set d k v) <-> c = k \/ c ∈ Py.dict_keys d.
Proof.
  rewrite dict_keys_set. case_decide as Hk.
  - split; [tauto|]. by intros [->|Hc].
  - rewrite elem_of_app, list_elem_of_singleton. tauto.
Qed.

(** With distinct keys, the items of a dictionary are its lookups. *)
Lemma dict_item_get d c v default :
  NoDup (Py.dict_keys d) ->
  (c, v) ∈ d <-> c ∈ Py.dict_keys d /\ v = Py.dict_get d c default.
Proof.
  unfold Py.dict_keys.
  induction d as [|[k' v'] r IH]; cbn; intros Hd.
  - rewrite !elem_of_nil. tauto.
  - apply NoDup_cons in Hd as [Hk' Hr].
    rewrite !elem_of_cons, (IH Hr).
    destruct (String.eqb_spec k' c) as [->|Hc].
    + split.
      * intros [[= ->]|[Hin _]]; [tauto|done].
      * intros [_ ->]. by left.
    + split.
      * intros [[= -> ->]|[Hin ->]]; [done|tauto].
      * intros [[->|Hin] ->]; [done|tauto].
Qed.

End DictFacts.

(** ** summary *)

Section SummaryFacts.
Context {A : Type} `{Number A}.
Implicit Types (es : list (Expense A)) (d : Py.dict A).

Lemma tally_unfold es : tally es = fold_left tally_step es [].
Proof. reflexivity. Qed.

Lemma tally_keys_NoDup es d :
  NoDup (Py.dict_keys d) -> NoDup (Py.dict_keys (fold_left tally_step es d)).
Proof.
  revert d. induction es as [|exp es IH]; intros d Hd; [done|].
  cbn [fold_left]. apply IH. by apply dict_keys_set_NoDup.
Qed.

Lemma tally_keys_elem es d c :
  c ∈ Py.dict_keys (fold_left tally_step es d)
  <-> c ∈ Py.dict_keys d \/ c ∈ map category es.
Proof.
  revert d. induction es as [|exp es IH]; intros d; cbn [fold_left map].
  - rewrite elem_of_nil. tauto.
  - rewrite IH. unfold tally_step at 1.
    rewrite dict_keys_set_elem, elem_of_cons. tauto.
Qed.

(** The entry of a category is the running sum of its amounts, in store
    order. *)
Lemma tally_get es d c :
  Py.dict_get (fold_left tally_step es d) c zero
  = fold_left add (map amount (filter (fun exp => category exp = c) es))
      (Py.dict_get d c zero).
Proof.
  revert d. induction es as [|exp es IH]; intros d; [done|].
  cbn [fold_left]. rewrite IH, filter_cons. unfold tally_step at 1.
  rewrite dict_get_set.
  destruct (decide (category exp = c)) as [<-|Hc]; done.
Qed.

Section Exact.
Hypothesis add_assoc : forall x y z : A, add x (add y z) = add (add x y) z.
Hypothesis add_comm : forall x y : A, add x y = add y x.
Hypothesis add_zero_l : forall x : A, add zero x = x.

Lemma fold_add_shift (l : list A) (z x : A) :
  fold_left add l (add z x) = add (fold_left add l z) x.
Proof.
  revert z. induction l as [|y l IH]; intros z; [done|].
  cbn. rewrite <- IH. f_equal.
  rewrite <- !add_assoc. f_equal. apply add_comm.
Qed.

Lemma values_set_sum d c x (z : A) :
  fold_left add
    (Py.dict_values (Py.dict_set d c (add (Py.dict_get d c zero) x))) z
  = add (fold_left add (Py.dict_values d) z) x.
Proof.
  unfold Py.dict_values.
  revert z. induction d as [|[k' v'] r IH]; intros z; cbn.
  - by rewrite add_zero_l.
  - destruct (String.eqb k' c); cbn.
    + by rewrite add_assoc, fold_add_shift.
    + apply IH.
Qed.

Lemma tally_values_sum es d :
  Py.sum (Py.dict_values (fold_left tally_step es d))
  = fold_left add (map amount es) (Py.sum (Py.dict_values d)).
Proof.
  revert d. induction es as [|exp es IH]; intros d; [done|].
  cbn [fold_left map]. rewrite IH. f_equal.
  unfold tally_step, Py.sum. apply values_set_sum.
Qed.
End Exact.

End SummaryFacts.

(** C5 (amended). For every store and every number type, [get_summary]
    returns normally without changing the state; [total] is the sum of all
    amounts (left to right, from zero), [count] the number of records,
    [average] is [total / count], and zero when there is no record;
    [categories] has exactly the stored category strings as keys, each
    once, and maps each to the sum of the amounts of its records, in store
    order; the empty store gives zero, zero, zero and the empty mapping.
    When the addition of amounts is exact (associative and commutative,
    with zero neutral), [total] equals the sum of the values of
    [categories]. *)
Theorem get_summary_spec {A : Type} `{Number A} (w : World A) :
  exists s,
    get_summary w = (Ok s, w) /\
    total s = Py.sum (map amount (expenses w)) /\
    count s = length (expenses w) /\
    average s = (if decide (count s = 0) then zero
                 else truediv (total s) (count s)) /\
    NoDup (Py.dict_keys (categories s)) /\
    (forall c v,
       (c, v) ∈ categories s <->
       c ∈ map category (expenses w) /\
       v = Py.sum (map amount
                     (filter (fun exp => category exp = c) (expenses w)))) /\
    (expenses w = [] ->
       total s = zero /\ count s = 0 /\ average s = zero /\ categories s = []) /\
    ((forall x y z : A, add x (add y z) = add (add x y) z) ->
     (forall x y : A, add x y = add y x) ->
     (forall x : A, add zero x = x) ->
     total s = Py.sum (Py.dict_values (categories s))).
Proof.
  unfold get_summary, bind, get_expenses, ret.
  destruct (expenses w) as [|exp es] eqn:Hes.
  - eexists. split; [reflexivity|]. cbn.
    repeat (split; [done|]).
    split; [constructor|]. split; [|done].
    intros c v. rewrite !elem_of_nil. tauto.
  - eexists. split; [reflexivity|]. cbn [total count average categories].
    split; [done|]. split; [done|]. split; [done|].
    assert (Hnd : NoDup (Py.dict_keys (tally (exp :: es)))).
    { rewrite tally_unfold. apply tally_keys_NoDup. constructor. }
    split; [exact Hnd|]. split; [|split; [done|]].
    + intros c v. rewrite (dict_item_get _ _ _ zero Hnd).
      rewrite tally_unfold, tally_keys_elem, tally_get.
      unfold Py.sum, Py.dict_keys. cbn [map Py.dict_get].
      rewrite elem_of_nil. tauto.
    + intros Hassoc Hcomm Hzero.
      rewrite tally_unfold, (tally_values_sum Hassoc Hcomm Hzero).
      reflexivity.
Qed.

(** Rational addition is exact. *)
Lemma Qplus_assoc_eq (x y z : Q) : Qplus x (Qplus y z) = Qplus (Qplus x y) z.
Proof.
  destruct x as [a b], y as [c d], z as [e f]. unfold Qplus. cbn.
  f_equal; [|by rewrite Pos.mul_assoc].
  rewrite !Pos2Z.inj_mul. ring.
Qed.

Lemma Qplus_comm_eq (x y : Q) : Qplus x y = Qplus y x.
Proof.
  destruct x as [a b], y as [c d]. unfold Qplus. cbn.
  f_equal; [ring|apply Pos.mul_comm].
Qed.

Lemma Qplus_zero_l_eq (x : Q) : Qplus 0 x = x.
Proof. destruct x as [a b]. unfold Qplus. cbn. f_equal. ring. Qed.

Lemma get_summary_spec_witness :
  exists s,
    get_summary exact_world = (Ok s, exact_world) /\
    total s = Py.sum (Py.dict_values (categories s)).
Proof.
  destruct (get_summary_spec exact_world)
    as (s & Hrun & _ & _ & _ & _ & _ & _ & Hsum).
  exists s. split; [exact Hrun|].
  apply Hsum.
  - exact Qplus_assoc_eq.
  - exact Qplus_comm_eq.
  - exact Qplus_zero_l_eq.
Defined.

(** C5, as stated, fails on floats: the total of this store is
    9007199254740994 while its category totals are 1 and 9007199254740992,
    whose sum is not the total (it is 9007199254740992 as a float and
    9007199254740993 as a real number). *)
Lemma get_summary_total_not_sum_of_categories :
  exists s,
    get_summary rounding_world = (Ok s, rounding_world) /\
    total s = 9007199254740994%float /\
    categories s = [("Bus", 1%float); ("Rent", 9007199254740992%float)] /\
    Py.sum (Py.dict_values (categories s)) = 9007199254740992%float /\
    PrimFloat.eqb (total s) (Py.sum (Py.dict_values (categories s))) = false /\
    total s ≠ Py.sum (Py.dict_values (categories s)).
Proof.
  exists (mkSummary 9007199254740994%float 3
            (truediv 9007199254740994%float 3)
            [("Bus", 1%float); ("Rent", 9007199254740992%float)]).
  split; [vm_compute; reflexivity|].
  split; [reflexivity|]. split; [reflexivity|].
  split; [vm_compute; reflexivity|]. split; [vm_compute; reflexivity|].
  intros Heq.
  apply (f_equal (PrimFloat.eqb 9007199254740994%float)) in Heq.
  vm_compute in Heq. discriminate.
Qed.

(** ** validate *)


Lemma positive_of_not_leb (x : float) :
  comparable x -> PrimFloat.leb x 0 = false -> positive x.
Proof. unfold comparable, positive. by intros -> ->. Qed.

(** Closes one direction of one case of the lemma below: the hypothesis is
    taken apart, and what is left is an equation between constants or an
    amount to exhibit. *)
Ltac settle_validate :=
  repeat match goal with
    | H : _ \/ _ |- _ => destruct H
    | H : _ /\ _ |- _ => destruct H
    | H : ex _ |- _ => destruct H
    | H : Some _ = Some _ |- _ => injection H as <-
    end;
  try congruence; try done;
  first [ by eexists | split; [by eexists|done] | tauto ].

(** What [validate_expense] checks: each message is present exactly when
    its test fails, the messages come in the order of the tests, and the
    list is empty exactly when the amount parses and is not [<= 0] and
    both texts are non-empty after stripping. *)
Lemma validate_expense_errors (amount category description : string) :
  let errors := validate_expense amount category description in
  ("Amount must be a valid number" ∈ errors <->
     PyFloat.float_of_str amount = None) /\
  ("Amount must be positive" ∈ errors <->
     exists x, PyFloat.float_of_str amount = Some x /\
               PrimFloat.leb x 0 = true) /\
  ("Category is required" ∈ errors <-> PyStr.strip category = "") /\
  ("Description is required" ∈ errors <-> PyStr.strip description = "") /\
  (errors = [] <->
     (exists x, PyFloat.float_of_str amount = Some x /\
                PrimFloat.leb x 0 = false) /\
     PyStr.strip category ≠ "" /\ PyStr.strip description ≠ "").
Proof.
  unfold validate_expense.
  destruct (PyFloat.float_of_str amount) as [x|];
    [destruct (PrimFloat.leb x 0) eqn:Hle|];
    destruct (PyStr.strip category) as [|c1 cs];
    destruct (PyStr.strip description) as [|d1 ds]; cbn;
    rewrite ?elem_of_cons, ?elem_of_nil;
    split_and!; split; intros Hyp; settle_validate.
Qed.

(** C6 at the input that the code gets wrong: the text [nan] parses, the
    result is not greater than zero, and no error is reported. *)
Theorem validate_expense_accepts_nan :
  validate_expense "nan" "Food" "Lunch" = [] /\
  PyFloat.float_of_str "nan" = Some nan /\
  PrimFloat.ltb 0 nan = false /\
  PrimFloat.leb nan 0 = false.
Proof. repeat split; vm_compute; reflexivity. Qed.

(** ** load *)

(** The cases in which [load_expenses] does recover: no file, a file that
    vanished before [open], and text that is not JSON all give the empty
    store; a well-formed document gives its records. *)
Lemma load_expenses_recovers (w : World float) :
  expenses (load_expenses None w).2 = [] /\
  load_expenses (Some (JOpenError FileNotFoundError)) w
    = (Ok tt, mkWorld (data_file w) [] (fs w) (stdout w)) /\
  load_expenses (Some JMalformed) w
    = (Ok tt, mkWorld (data_file w) [] (fs w) (stdout w)) /\
  forall es, load_expenses (Some (JDocument es)) w
             = (Ok tt, mkWorld (data_file w) es (fs w) (stdout w)).
Proof. repeat split. Qed.

(** C3 at the inputs that the code gets wrong: when the data file exists
    but holds bytes that do not decode, is a directory, or may not be
    read, the exception leaves [load_expenses]; the two handled exception
    classes do not cover these. *)
Theorem load_expenses_raises (w : World float) :
  load_expenses (Some JUndecodable) w = (Raise UnicodeDecodeError, w) /\
  load_expenses (Some (JOpenError IsADirectoryError)) w
    = (Raise IsADirectoryError, w) /\
  load_expenses (Some (JOpenError PermissionError)) w
    = (Raise PermissionError, w).
Proof. repeat split. Qed.

(** ** export *)

(** C1 at the input that the code gets wrong: with an empty store the
    message is printed, but [open] has run before the test, so a file
    that did not exist now exists, empty, and a file that existed has lost
    its content. *)
Theorem export_expenses_empty_store_touches_file :
  (let w' := (export_expenses "2024-01-15" (Some "out.csv") fresh_world).2 in
   stdout w' = ["No expenses to save"] /\
   fs fresh_world !! "out.csv" = None /\
   fs w' !! "out.csv" = Some (File true [])) /\
  (let w' := (export_expenses "2024-01-15" (Some "out.csv")
                world_with_old_export).2 in
   stdout w' = ["No expenses to save"] /\
   fs w' !! "out.csv" = Some (File true [])).
Proof. repeat split; vm_compute; reflexivity. Qed.

(** For any empty store and any target that can be opened, the export
    prints the message and leaves the target as an empty file. *)
Lemma export_expenses_empty_store (today name : string) (w : World float) :
  expenses w = [] -> name ≠ "" ->
  (forall writable content, fs w !! name = Some (File writable content) ->
                            writable = true) ->
  fs w !! name ≠ Some Directory ->
  let w' := (export_expenses today (Some name) w).2 in
  stdout w' = stdout w ++ ["No expenses to save"] /\
  fs w' !! name = Some (File true []) /\
  expenses w' = [].
Proof.
  destruct w as [path es files out]. cbn [expenses fs stdout].
  intros -> Hname Hwr Hdir.
  unfold export_expenses, open_w. unfold_monad.
  destruct name as [|c name]; [done|]. cbn beta iota delta [PyStr.falsy fs].
  destruct (files !! String c name) as [[|[|] content]|] eqn:Hlook.
  - done.
  - cbn. by rewrite lookup_insert_eq.
  - by specialize (Hwr _ _ eq_refl).
  - cbn. by rewrite lookup_insert_eq.
Qed.

(** ** The record invariant *)

(** C2, as stated, fails: [add_expense] stores what it is given. Called
    with -5, a blank category, an empty description and the date text
    [yesterday] on the empty store, it leaves a record with a non-positive
    amount, empty category and description and a date that is no ISO
    date. Going through [validate_expense] first does not check the date
    either. *)
Lemma add_expense_stores_invalid_record :
  (exists exp w',
     add_expense "3f2a9c1e-0000-4000-8000-000000000000" "2024-01-15"
       "2024-01-15T12:00:00" (-5)%float "  " "" (Some "yesterday") fresh_world
     = (Ok exp, w') /\
     expenses w' = [exp] /\
     PrimFloat.ltb 0 (amount exp) = false /\
     category exp = "" /\ description exp = "" /\
     is_iso_date (date exp) = false /\
     ~ well_formed exp) /\
  (exists x exp w',
     validate_expense "50" "Food" "Lunch" = [] /\
     PyFloat.float_of_str "50" = Some x /\
     add_expense "3f2a9c1e-0000-4000-8000-000000000000" "2024-01-15"
       "2024-01-15T12:00:00" x "Food" "Lunch" (Some "tomorrow") fresh_world
     = (Ok exp, w') /\
     expenses w' = [exp] /\
     ~ well_formed exp).
Proof.
  split.
  - eexists _, _. split; [reflexivity|]. cbn.
    repeat split; try reflexivity.
    intros [[_ [Hcat _]] _]. by apply Hcat.
  - eexists _, _, _. split; [vm_compute; reflexivity|].
    split; [vm_compute; reflexivity|]. split; [reflexivity|].
    split; [reflexivity|].
    intros [_ Hdate]. vm_compute in Hdate. discriminate.
Qed.

(** [strip] of a text that [validate_expense] accepts is non-empty. *)
Lemma falsy_false (s : string) : PyStr.falsy s = false <-> s ≠ "".
Proof. destruct s; cbn; split; intros; done. Qed.

(** C2 (amended). If every record of the store has a positive amount and a
    non-empty category and description, this still holds after
    [delete_expense], and after an [add_expense] whose amount text,
    category and description were accepted by [validate_expense], the
    amount being an ordinary number (not NaN); the added record is the last
    one of the store. The date of a record is not checked by any
    operation. *)
Theorem validated_add_and_delete_keep_checked (w : World float)
    (Hw : Forall checked (expenses w)) :
  (forall expense_id,
     Forall checked (expenses (delete_expense expense_id w).2)) /\
  (forall uuid4 today now amount_text cat desc x expense_date,
     validate_expense amount_text cat desc = [] ->
     PyFloat.float_of_str amount_text = Some x ->
     comparable x ->
     exists exp w',
       add_expense uuid4 today now x cat desc expense_date w = (Ok exp, w') /\
       expenses w' = expenses w ++ [exp] /\
       checked exp /\
       Forall checked (expenses w')).
Proof.
  split.
  - intros expense_id.
    unfold delete_expense. unfold_monad. cbn [snd expenses].
    apply Forall_forall. intros exp [_ Hin]%list_elem_of_filter.
    revert exp Hin. by apply Forall_forall.
  - intros uuid4 today now amount_text cat desc x expense_date Hval Hx Hcmp.
    apply validate_expense_errors in Hval as [(y & Hy & Hle) [Hcat Hdesc]].
    assert (y = x) as -> by congruence.
    eexists _, _. split; [reflexivity|]. cbn.
    assert (Hnew : checked
              (mkExpense (short_id uuid4) x (PyStr.strip cat)
                 (PyStr.strip desc) (default today expense_date) now)).
    { split; [by apply positive_of_not_leb|]. by split. }
    split; [done|]. split; [done|].
    apply Forall_app. split; [done|]. by constructor.
Qed.

Lemma validated_add_and_delete_keep_checked_witness :
  Forall checked (expenses fresh_world) /\
  exists exp w',
    add_expense "3f2a9c1e-0000-4000-8000-000000000000" "2024-01-15"
      "2024-01-15T12:00:00" 50%float "Food" "Lunch" None fresh_world
    = (Ok exp, w') /\
    expenses w' = expenses fresh_world ++ [exp] /\
    checked exp /\
    Forall checked (expenses w').
Proof.
  assert (Hw : Forall checked (expenses fresh_world)) by constructor.
  split; [exact Hw|].
  apply (proj2 (validated_add_and_delete_keep_checked fresh_world Hw)
           "3f2a9c1e-0000-4000-8000-000000000000" "2024-01-15"
           "2024-01-15T12:00:00" "50" "Food" "Lunch" 50%float None).
  - vm_compute. reflexivity.
  - vm_compute. reflexivity.
  - vm_compute. reflexivity.
Defined.

(** ** DictReader rows *)

Section DictRow.
Implicit Types (names : list string) (record : list string) (d : row).

Lemma zip_fst_take names record :
  (zip names record).*1 = take (length record) names.
Proof.
  revert record. induction names as [|n names IH]; intros [|x record]; cbn;
    try done.
  by rewrite IH.
Qed.

Lemma fold_insert_Some_None (l : list (string * string)) d k :
  fold_left (fun d kv => <[kv.1 := Some kv.2]> d) l d !! k = None
  <-> d !! k = None /\ k ∉ l.*1.
Proof.
  revert d. induction l as [|[k' v] l IH]; intros d; cbn [fold_left fmap list_fmap].
  - rewrite elem_of_nil. tauto.
  - rewrite IH, not_elem_of_cons. cbn [fst snd].
    destruct (decide (k' = k)) as [->|Hne].
    + rewrite lookup_insert_eq. split; [by intros [? _]|by intros (_ & ? & _)].
    + rewrite lookup_insert_ne by done.
      assert (k ≠ k') by congruence. tauto.
Qed.

Lemma fold_insert_None_None (keys : list string) d k :
  fold_left (fun d key => <[key := None]> d) keys d !! k = None
  <-> d !! k = None /\ k ∉ keys.
Proof.
  revert d. induction keys as [|k' keys IH]; intros d; cbn [fold_left].
  - rewrite elem_of_nil. tauto.
  - rewrite IH, not_elem_of_cons.
    destruct (decide (k' = k)) as [->|Hne].
    + rewrite lookup_insert_eq. split; [by intros [? _]|by intros (_ & ? & _)].
    + rewrite lookup_insert_ne by done.
      assert (k ≠ k') by congruence. tauto.
Qed.

(** The keys of a row are the field names of the header. *)
Lemma dict_row_lookup_None names record k :
  dict_row names record !! k = None <-> k ∉ names.
Proof.
  unfold dict_row.
  rewrite fold_insert_None_None, fold_insert_Some_None, lookup_empty.
  rewrite zip_fst_take.
  rewrite <- (take_drop (length record) names) at 3.
  rewrite not_elem_of_app. tauto.
Qed.

Lemma fold_insert_Some_full (l : list (string * string)) d :
  full d -> full (fold_left (fun d kv => <[kv.1 := Some kv.2]> d) l d).
Proof.
  revert d. induction l as [|[k' v] l IH]; intros d Hd; [done|].
  cbn [fold_left]. apply IH. intros k u. cbn [fst snd].
  destruct (decide (k' = k)) as [->|Hne].
  - rewrite lookup_insert_eq. intros [= <-]. by eexists.
  - rewrite lookup_insert_ne by done. apply Hd.
Qed.

(** A record that has a field for every name gives a full row. *)
Lemma dict_row_full names record :
  length names <= length record -> full (dict_row names record).
Proof.
  intros Hlen. unfold dict_row. rewrite drop_ge by done. cbn [fold_left].
  apply fold_insert_Some_full. intros k v. by rewrite lookup_empty.
Qed.

Lemma has_required_spec d :
  has_required d = true <-> forall key, key ∈ required -> is_Some (d !! key).
Proof.
  unfold has_required. rewrite forallb_forall. split.
  - intros Hall key Hin%list_elem_of_In.
    specialize (Hall key Hin). by apply bool_decide_eq_true in Hall.
  - intros Hall key Hin%list_elem_of_In.
    apply bool_decide_eq_true. by apply Hall.
Qed.

Lemma dict_row_has_required names record :
  has_required (dict_row names record) = true
  <-> forall key, key ∈ required -> key ∈ names.
Proof.
  rewrite has_required_spec. split; intros Hall key Hin.
  - destruct (decide (key ∈ names)) as [|Hnot]; [done|].
    apply dict_row_lookup_None with (record := record) in Hnot.
    destruct (Hall key Hin) as [v Hv]. congruence.
  - destruct (dict_row names record !! key) eqn:Hlook; [by eexists|].
    apply dict_row_lookup_None in Hlook. by specialize (Hall key Hin).
Qed.

(** A required field of a full row is a string. *)
Lemma required_item d key :
  has_required d = true -> full d -> key ∈ required ->
  exists s, item d key = Some s.
Proof.
  intros Hreq Hfull Hin.
  destruct (proj1 (has_required_spec d) Hreq key Hin) as [v Hv].
  destruct (Hfull key v Hv) as [s ->].
  exists s. unfold item. by rewrite Hv.
Qed.

End DictRow.

(** ** import *)

Lemma printed_nil (w : World float) : printed w [] = w.
Proof. destruct w. unfold printed. cbn. by rewrite app_nil_r. Qed.

Lemma printed_printed (w : World float) (l1 l2 : list string) :
  printed (printed w l1) l2 = printed w (l1 ++ l2).
Proof. unfold printed. cbn. by rewrite app_assoc. Qed.

Lemma in_required_id : "id" ∈ required.
Proof. repeat constructor. Qed.
Lemma in_required_amount : "amount" ∈ required.
Proof. repeat constructor. Qed.
Lemma in_required_category : "category" ∈ required.
Proof. repeat constructor. Qed.
Lemma in_required_description : "description" ∈ required.
Proof. repeat constructor. Qed.
Lemma in_required_date : "date" ∈ required.
Proof. repeat constructor. Qed.

(** One pass of the loop over a full row that has the required keys. *)
Lemma import_rows_step (now : nat -> string) (i : nat) (r : row)
    (rest : list row) (acc : list (Expense float)) (w : World float) :
  has_required r = true -> full r ->
  exists a c d row_id row_date created,
    item r "amount" = Some a /\ item r "category" = Some c /\
    item r "description" = Some d /\ item r "id" = Some row_id /\
    item r "date" = Some row_date /\
    match r !! "created_at" with
    | Some v => v = Some created
    | None => created = now i
    end /\
    import_rows now i (r :: rest) acc w =
      match PyFloat.float_of_str a with
      | Some x =>
          if PrimFloat.leb x 0 then
            import_rows now (S i) rest acc
              (printed w [" Skipping invalid amount: " +:+ a])
          else
            import_rows now (S i) rest
              (acc ++ [mkExpense row_id x (PyStr.strip c) (PyStr.strip d)
                         row_date created]) w
      | None =>
          import_rows now (S i) rest acc
            (printed w [" Skipping invalid amount: " +:+ a])
      end.
Proof.
  intros Hreq Hfull.
  destruct (required_item r "amount" Hreq Hfull in_required_amount) as [a Ha].
  destruct (required_item r "category" Hreq Hfull in_required_category)
    as [c Hc].
  destruct (required_item r "description" Hreq Hfull in_required_description)
    as [d Hd].
  destruct (required_item r "id" Hreq Hfull in_required_id) as [row_id Hid].
  destruct (required_item r "date" Hreq Hfull in_required_date)
    as [row_date Hdate].
  assert (Hcreated : exists created,
            default (Some (now i)) (r !! "created_at") = Some created /\
            match r !! "created_at" with
            | Some v => v = Some created
            | None => created = now i
            end).
  { destruct (r !! "created_at") as [v|] eqn:Hlook.
    - destruct (Hfull _ _ Hlook) as [s ->]. by exists s.
    - by exists (now i). }
  destruct Hcreated as (created & Hdef & Hcr).
  exists a, c, d, row_id, row_date, created.
  repeat (split; [done|]).
  cbn [import_rows]. rewrite Hreq. cbn [negb].
  unfold float_of_field, strip_field, str_field. rewrite Ha, Hc, Hd, Hid, Hdate, Hdef.
  unfold_monad. cbn [show_field default].
  destruct (PyFloat.float_of_str a) as [x|]; [|reflexivity].
  destruct (PrimFloat.leb x 0); reflexivity.
Qed.

(** Over full rows with the required keys the loop runs to its end, only
    prints, and appends one record for each accepted row, in order. *)
Lemma import_rows_full (now : nat -> string) (rows : list row) :
  forall (i : nat) (acc : list (Expense float)) (w : World float),
    Forall (fun r => has_required r = true /\ full r) rows ->
    exists out built,
      import_rows now i rows acc w = (Ok (Some (acc ++ built)), printed w out) /\
      Forall2 (built_from now) (filter (fun r => accepted r = true) rows) built.
Proof.
  induction rows as [|r rest IH]; intros i acc w Hrows.
  - exists [], []. rewrite printed_nil, app_nil_r. split; [done|constructor].
  - apply Forall_cons in Hrows as [[Hreq Hfull] Hrest].
    destruct (import_rows_step now i r rest acc w Hreq Hfull)
      as (a & c & d & row_id & row_date & created
          & Ha & Hc & Hd & Hid & Hdate & Hcr & Hstep).
    assert (Hacc : accepted r = match PyFloat.float_of_str a with
                                | Some x => negb (PrimFloat.leb x 0)
                                | None => false
                                end)
      by (unfold accepted, row_amount; by rewrite Ha).
    rewrite Hstep, filter_cons.
    destruct (PyFloat.float_of_str a) as [x|] eqn:Hx;
      [destruct (PrimFloat.leb x 0) eqn:Hle|]; cbn [negb] in Hacc.
    + destruct (IH (S i) acc (printed w [" Skipping invalid amount: " +:+ a])
                  Hrest) as (out & built & Hrun & Hbuilt).
      rewrite decide_False by (by rewrite Hacc).
      eexists _, built. rewrite Hrun, printed_printed. done.
    + destruct (IH (S i)
                  (acc ++ [mkExpense row_id x (PyStr.strip c) (PyStr.strip d)
                             row_date created]) w Hrest)
        as (out & built & Hrun & Hbuilt).
      rewrite decide_True by done.
      eexists out, (_ :: built). rewrite Hrun, <- app_assoc.
      split; [done|]. constructor; [|done].
      unfold built_from, row_amount. cbn [amount id category description
                                             date created_at].
      rewrite Ha, Hc, Hd, Hid, Hdate, Hx. repeat (split; [done|]).
      destruct (r !! "created_at"); [done|by exists i].
    + destruct (IH (S i) acc (printed w [" Skipping invalid amount: " +:+ a])
                  Hrest) as (out & built & Hrun & Hbuilt).
      rewrite decide_False by (by rewrite Hacc).
      eexists _, built. rewrite Hrun, printed_printed. done.
Qed.

(** [save_expenses] never raises and leaves the store as it is. *)
Lemma save_expenses_runs (w : World float) :
  exists saved files out,
    save_expenses w
    = (Ok saved, mkWorld (data_file w) (expenses w) files (stdout w ++ out)).
Proof.
  destruct w as [path es files out0].
  unfold save_expenses, open_w, write. unfold_monad.
  cbn beta iota delta [data_file expenses fs stdout].
  destruct (PyStr.falsy path).
  { eexists false, _, [_]. reflexivity. }
  destruct (files !! path) as [[|[|] content]|] eqn:Hlook.
  - eexists false, _, [_]. reflexivity.
  - cbn. rewrite lookup_insert_eq. eexists true, _, []. by rewrite app_nil_r.
  - eexists false, _, [_]. reflexivity.
  - cbn. rewrite lookup_insert_eq. eexists true, _, []. by rewrite app_nil_r.
Qed.

(** On rows whose amounts are ordered with respect to zero, passing the
    test of the loop is having a positive amount. *)
Lemma filter_accepted_valid (rows : list row) :
  Forall (fun r => forall x, row_amount r = Some x -> comparable x) rows ->
  filter (fun r => accepted r = true) rows
  = filter (fun r => valid r = true) rows.
Proof.
  induction 1 as [|r rows Hr _ IH]; [done|].
  rewrite !filter_cons, IH.
  assert (Hsame : accepted r = valid r).
  { unfold accepted, valid. destruct (row_amount r) as [x|]; [|done].
    symmetry. by apply Hr. }
  rewrite Hsame. by destruct (decide (valid r = true)).
Qed.

(** C8 (amended). For a file that opens and has a header line:
    - if one of the five required columns is missing from the header, no
      record is added and no file is written; the format error is
      reported when the file has at least one non-empty data line, and
      with no data line the report is that no valid expense was found;
    - if the header has the five columns, every data line has a field for
      every column, the reader does not fail and no amount is NaN, then the
      import returns normally and appends to the store, in file order, one
      record for each line whose amount parses to a number greater than
      zero; the other lines are skipped. *)
Theorem import_expenses_spec (now : nat -> string) (filename : string)
    (names : list string) (rest : list (list string)) (failure : option exn)
    (w : World float) :
  let data := filter (fun record => record ≠ []) rest in
  let rows := map (dict_row names) data in
  let outcome := import_expenses now filename (CRecords (names :: rest) failure) w in
  ((exists key, key ∈ required /\ key ∉ names) ->
   expenses outcome.2 = expenses w /\ fs outcome.2 = fs w /\
   (data ≠ [] ->
    outcome = (Ok tt,
           printed w [" Invalid CSV format - missing required columns"])) /\
   (data = [] -> failure = None ->
    outcome = (Ok tt, printed w ["No valid expenses found in CSV file"]))) /\
  ((forall key, key ∈ required -> key ∈ names) ->
   Forall (fun record => length names <= length record) data ->
   Forall (fun r => forall x, row_amount r = Some x -> comparable x) rows ->
   failure = None ->
   exists imported,
     outcome.1 = Ok tt /\
     expenses outcome.2 = expenses w ++ imported /\
     Forall2 (built_from now) (filter (fun r => valid r = true) rows) imported).
Proof.
  intros data rows outcome. split.
  - intros (key & Hkey & Hmissing).
    assert (Hbad : forall record, has_required (dict_row names record) = false).
    { intros record. apply not_true_is_false. intros Hreq.
      apply Hmissing. by apply (dict_row_has_required names record). }
    subst outcome rows. unfold import_expenses, dict_reader. fold data.
    destruct data as [|record data'].
    + cbn [map import_rows]. unfold_monad.
      destruct failure as [e|]; [|by repeat split].
      split_and!; try done. all: by destruct e.
    + cbn [map import_rows]. rewrite Hbad. cbn [negb]. unfold_monad.
      by destruct failure.
  - intros Hall Hlen Hcmp ->.
    assert (Hrows : Forall (fun r => has_required r = true /\ full r) rows).
    { subst rows. apply Forall_fmap. eapply Forall_impl; [exact Hlen|].
      intros record Hrec. cbn. split.
      - by apply dict_row_has_required.
      - by apply dict_row_full. }
    destruct (import_rows_full now rows 0 [] w Hrows)
      as (out & built & Hloop & Hbuilt).
    rewrite (filter_accepted_valid rows Hcmp) in Hbuilt.
    cbn [app] in Hloop.
    exists built. subst outcome. unfold import_expenses, dict_reader.
    fold data. fold rows. unfold_monad. cbv beta. rewrite Hloop.
    destruct built as [|exp built].
    + cbn. by rewrite app_nil_r.
    + cbv beta iota.
      destruct (save_expenses_runs
                  (mkWorld (data_file (printed w out))
                     (expenses (printed w out) ++ exp :: built)
                     (fs (printed w out)) (stdout (printed w out))))
        as (saved & files & out' & ->).
      destruct saved; unfold print; cbn; done.
Qed.

(** C8, as stated, fails: for a file that consists of a header without
    the [category] column and has no data line, the import reports that
    no valid expense was found, not a format error. *)
Lemma import_header_only_reports_no_format_error :
  import_expenses noon "in.csv"
    (CRecords [["id"; "amount"; "description"; "date"]] None) fresh_world
  = (Ok tt, printed fresh_world ["No valid expenses found in CSV file"]).
Proof. vm_compute. reflexivity. Qed.

(** Two more runs. A line whose amount is [nan] passes the [<= 0] test and
    is added. A line that is too short for the header gives [None] as
    amount; [float(None)] raises [TypeError], which ends the import without
    the lines before it being added. *)
Lemma import_nan_and_short_lines :
  expenses
    (import_expenses noon "in.csv"
       (CRecords
          [["id"; "amount"; "category"; "description"; "date"];
           ["a1"; "nan"; "Food"; "Lunch"; "2024-01-15"]] None)
       fresh_world).2
  = [mkExpense "a1" nan "Food" "Lunch" "2024-01-15" "2024-01-15T12:00:00"] /\
  import_expenses noon "in.csv"
    (CRecords
       [["id"; "amount"; "category"; "description"; "date"];
        ["a1"; "50"; "Food"; "Lunch"; "2024-01-15"];
        ["b2"]] None)
    fresh_world
  = (Ok tt,
     printed fresh_world
       [" Import failed: float() argument must be a string or a real number, not 'NoneType'"]).
Proof. split; vm_compute; reflexivity. Qed.

Lemma import_expenses_spec_witness :
  exists imported,
    (import_expenses noon "in.csv"
       (CRecords (sample_header :: sample_lines) None) fresh_world).1 = Ok tt /\
    expenses
      (import_expenses noon "in.csv"
         (CRecords (sample_header :: sample_lines) None) fresh_world).2
    = expenses fresh_world ++ imported /\
    Forall2 (built_from noon)
      (filter (fun r => valid r = true)
         (map (dict_row sample_header)
            (filter (fun record => record ≠ []) sample_lines)))
      imported.
Proof.
  apply (proj2 (import_expenses_spec noon "in.csv" sample_header sample_lines
                  None fresh_world)).
  - intros key Hin. apply list_elem_of_In in Hin. apply list_elem_of_In.
    cbn in Hin |- *. tauto.
  - repeat constructor.
  - repeat constructor; intros x Hx; vm_compute in Hx;
      try discriminate; injection Hx as <-; vm_compute; reflexivity.
  - reflexivity.
Defined.

(** * Further properties of the code *)

(** ** [strip] *)

Section Strip.
Implicit Types (s t : string) (c : ascii).

Lemma append_cons c s t : String c s +:+ t = String c (s +:+ t).
Proof. reflexivity. Qed.

Lemma append_nil t : "" +:+ t = t.
Proof. reflexivity. Qed.

Lemma lstrip_split s :
  exists before, s = before +:+ PyStr.lstrip s /\ all_space before = true.
Proof.
  induction s as [|c s (before & Hs & Hsp)]; [by exists ""|].
  cbn [PyStr.lstrip]. destruct (PyStr.is_space c) eqn:Hc.
  - exists (String c before). split.
    + rewrite append_cons. by f_equal.
    + cbn [all_space]. by rewrite Hc, Hsp.
  - by exists "".
Qed.

Lemma lstrip_first s c :
  first_char (PyStr.lstrip s) = Some c -> PyStr.is_space c = false.
Proof.
  induction s as [|c' s IH]; [done|].
  cbn [PyStr.lstrip]. destruct (PyStr.is_space c') eqn:Hc'; [done|].
  cbn. by intros [= <-].
Qed.

Lemma rstrip_split s :
  exists after, s = PyStr.rstrip s +:+ after /\ all_space after = true.
Proof.
  induction s as [|c s (after & Hs & Hsp)]; [by exists ""|].
  cbn [PyStr.rstrip]. destruct (PyStr.rstrip s) as [|c' r] eqn:Hr.
  - destruct (PyStr.is_space c) eqn:Hc.
    + exists (String c s). rewrite append_nil in Hs. subst after.
      split; [done|]. cbn [all_space]. by rewrite Hc, Hsp.
    + exists after. split; [|done]. rewrite append_cons. by f_equal.
  - exists after. split; [|done]. rewrite append_cons. by f_equal.
Qed.

Lemma rstrip_last s c :
  last_char (PyStr.rstrip s) = Some c -> PyStr.is_space c = false.
Proof.
  induction s as [|c' s IH]; [done|].
  cbn [PyStr.rstrip]. destruct (PyStr.rstrip s) as [|c'' r] eqn:Hr.
  - destruct (PyStr.is_space c') eqn:Hc'; [done|]. cbn. by intros [= <-].
  - intros Hlast. apply IH. exact Hlast.
Qed.

(** [rstrip] keeps the first character of what it leaves. *)
Lemma rstrip_first s c :
  first_char (PyStr.rstrip s) = Some c -> first_char s = Some c.
Proof.
  destruct s as [|c' s]; [done|]. cbn [PyStr.rstrip].
  destruct (PyStr.rstrip s); [destruct (PyStr.is_space c')|]; done.
Qed.

Lemma strip_trim_of s : trim_of s (PyStr.strip s).
Proof.
  unfold PyStr.strip. split; [split|].
  - intros c Hc%rstrip_first. by eapply lstrip_first.
  - apply rstrip_last.
  - destruct (lstrip_split s) as (before & Hs & Hbefore).
    destruct (rstrip_split (PyStr.lstrip s)) as (after & Hl & Hafter).
    exists before, after. split; [|done]. by rewrite <- Hl.
Qed.

(** A trimmed text is left as it is. *)
Lemma lstrip_trimmed t :
  (forall c, first_char t = Some c -> PyStr.is_space c = false) ->
  PyStr.lstrip t = t.
Proof.
  destruct t as [|c t]; [done|]. intros Hfirst. cbn.
  by rewrite (Hfirst c eq_refl).
Qed.

Lemma rstrip_trimmed t :
  (forall c, last_char t = Some c -> PyStr.is_space c = false) ->
  PyStr.rstrip t = t.
Proof.
  induction t as [|c t IH]; [done|]. intros Hlast. cbn [PyStr.rstrip].
  destruct t as [|c' t'].
  - cbn. by rewrite (Hlast c eq_refl).
  - rewrite IH; [done|]. intros c0 Hc0. apply Hlast. exact Hc0.
Qed.

Lemma strip_trimmed t : trimmed t -> PyStr.strip t = t.
Proof.
  intros [Hfirst Hlast]. unfold PyStr.strip.
  by rewrite lstrip_trimmed, rstrip_trimmed.
Qed.

Lemma strip_idempotent s : PyStr.strip (PyStr.strip s) = PyStr.strip s.
Proof. apply strip_trimmed, strip_trim_of. Qed.

End Strip.

(** ** add *)

Lemma substring_prefix (n : nat) (s : string) :
  exists rest, s = substring 0 n s +:+ rest.
Proof.
  revert s. induction n as [|n IH]; intros [|c s]; cbn [substring].
  - by exists "".
  - by exists (String c s).
  - by exists "".
  - destruct (IH s) as [rest Hrest]. exists rest.
    rewrite append_cons. by f_equal.
Qed.

Lemma substring_length (n : nat) (s : string) :
  String.length (substring 0 n s) = Nat.min n (String.length s).
Proof.
  revert s. induction n as [|n IH]; intros [|c s]; cbn [substring]; try done.
  cbn [String.length]. by rewrite IH.
Qed.

(** X1. [add_expense] returns normally for every input. It appends one
    record to the end of the store and changes nothing else; the record it
    returns is the stored one. The id is the first eight characters of
    the uuid text, the amount is the one given, the category and the
    description are the given texts without the white space around them,
    the date is the given one or else today, and [created_at] is the
    clock reading. *)
Theorem add_expense_appends_trimmed_record (uuid4 today now : string)
    (x : float) (cat desc : string) (expense_date : option string)
    (w : World float) :
  exists exp,
    add_expense uuid4 today now x cat desc expense_date w
    = (Ok exp, mkWorld (data_file w) (expenses w ++ [exp]) (fs w) (stdout w)) /\
    (exists rest, uuid4 = id exp +:+ rest) /\
    String.length (id exp) = Nat.min 8 (String.length uuid4) /\
    amount exp = x /\
    trim_of cat (category exp) /\
    trim_of desc (description exp) /\
    date exp = match expense_date with Some d => d | None => today end /\
    created_at exp = now.
Proof.
  eexists. split; [reflexivity|]. cbn [id amount category description date
                                         created_at].
  split; [apply substring_prefix|]. split; [apply substring_length|].
  split; [done|]. split; [apply strip_trim_of|].
  split; [apply strip_trim_of|]. by destruct expense_date.
Qed.

(** X2. Adding a record and then deleting its id gives back the store as
    it was, and the deletion reports success, provided no earlier record
    has that id. *)
Theorem add_then_delete_restores (uuid4 today now : string) (x : float)
    (cat desc : string) (expense_date : option string) (w : World float) :
  Forall (fun exp => id exp ≠ short_id uuid4) (expenses w) ->
  let w1 := (add_expense uuid4 today now x cat desc expense_date w).2 in
  delete_expense (short_id uuid4) w1 = (Ok true, w).
Proof.
  intros Hfresh. destruct w as [path es files out].
  cbn [expenses] in Hfresh.
  unfold add_expense, delete_expense. unfold_monad.
  cbn [snd expenses data_file fs stdout].
  rewrite filter_app, filter_cons_False, filter_nil, app_nil_r
    by (cbn; by intros []).
  assert (Hid : filter (fun exp : Expense float => id exp ≠ short_id uuid4) es
                = es).
  { clear -Hfresh. induction Hfresh as [|e es He _ IH]; [done|].
    by rewrite filter_cons_True, IH. }
  rewrite Hid, length_app. cbn [length].
  f_equal. f_equal. apply Nat.ltb_lt. lia.
Qed.

Lemma add_then_delete_restores_witness :
  delete_expense (short_id "3f2a9c1e-0000-4000-8000-000000000000")
    (add_expense "3f2a9c1e-0000-4000-8000-000000000000" "2024-01-15"
       "2024-01-15T12:00:00" 50%float "Food" "Lunch" None rounding_world).2
  = (Ok true, rounding_world).
Proof.
  apply (add_then_delete_restores "3f2a9c1e-0000-4000-8000-000000000000"
           "2024-01-15" "2024-01-15T12:00:00" 50%float "Food" "Lunch" None
           rounding_world).
  repeat constructor; cbn; discriminate.
Defined.

(** ** delete, again *)

Lemma filter_filter_same {X : Type} (P : X -> Prop) `{!forall x, Decision (P x)}
    (l : list X) :
  filter P (filter P l) = filter P l.
Proof.
  induction l as [|x l IH]; [done|].
  rewrite filter_cons. destruct (decide (P x)) as [HP|HP]; [|done].
  by rewrite filter_cons_True, IH.
Qed.

(** X3. Deleting the same id a second time finds nothing: it returns
    [False] and leaves the state of the first deletion. *)
Theorem delete_expense_twice {A : Type} (expense_id : string) (w : World A) :
  let w1 := (delete_expense expense_id w).2 in
  delete_expense expense_id w1 = (Ok false, w1).
Proof.
  destruct w as [path es files out].
  unfold delete_expense. unfold_monad.
  cbn [snd expenses data_file fs stdout].
  rewrite filter_filter_same. by rewrite Nat.ltb_irrefl.
Qed.

(** ** add and listAll *)

(** An item whose key is greater than every key of the list comes out
    first. *)
Lemma sorted_reverse_snoc_greatest {X : Type} (key : X -> string)
    (l : list X) (x : X) :
  Forall (fun e => String.ltb (key e) (key x) = true) l ->
  Py.sorted_reverse key (l ++ [x]) = x :: Py.sorted_reverse key l.
Proof.
  intros Hlt. apply (stable_desc_unique key).
  - apply sorted_reverse_sorted.
  - constructor; [apply sorted_reverse_sorted|].
    rewrite sorted_reverse_perm. eapply Forall_impl; [exact Hlt|].
    intros e He. by apply ltb_true_leb.
  - intros t. rewrite sorted_reverse_stable, filter_app.
    rewrite (filter_cons _ x (Py.sorted_reverse key l)).
    rewrite sorted_reverse_stable, (filter_cons _ x []), filter_nil.
    destruct (decide (key x = t)) as [<-|Hne]; [|by rewrite app_nil_r].
    assert (Hnone : filter (fun e => key e = key x) l = []).
    { clear -Hlt. induction Hlt as [|e l He _ IH]; [done|].
      rewrite filter_cons_False; [done|].
      intros Heq. rewrite Heq, ltb_irrefl in He. done. }
    by rewrite Hnone.
Qed.

(** X4. When the clock reading of an added record is later than the
    [created_at] of every stored record, [get_all_expenses] lists the new
    record first, followed by what it listed before. *)
Theorem add_then_get_all_newest_first (uuid4 today now : string) (x : float)
    (cat desc : string) (expense_date : option string) (w : World float) :
  Forall (fun exp => String.ltb (created_at exp) now = true) (expenses w) ->
  exists exp w1 before,
    add_expense uuid4 today now x cat desc expense_date w = (Ok exp, w1) /\
    get_all_expenses w = (Ok before, w) /\
    get_all_expenses w1 = (Ok (exp :: before), w1).
Proof.
  intros Hnow. eexists _, _, _. split; [reflexivity|]. split; [reflexivity|].
  unfold get_all_expenses. unfold_monad. cbn [expenses].
  by rewrite sorted_reverse_snoc_greatest.
Qed.

Lemma add_then_get_all_newest_first_witness :
  exists exp w1 before,
    add_expense "3f2a9c1e-0000-4000-8000-000000000000" "2024-02-01"
      "2024-02-01T09:30:00" 50%float "Food" "Lunch" None rounding_world
    = (Ok exp, w1) /\
    get_all_expenses rounding_world = (Ok before, rounding_world) /\
    get_all_expenses w1 = (Ok (exp :: before), w1).
Proof.
  apply (add_then_get_all_newest_first "3f2a9c1e-0000-4000-8000-000000000000"
           "2024-02-01" "2024-02-01T09:30:00" 50%float "Food" "Lunch" None
           rounding_world).
  repeat constructor.
Defined.

(** ** categories *)

Lemma ltb_trans (a b c : string) :
  String.ltb a b = true -> String.ltb b c = true -> String.ltb a c = true.
Proof.
  intros Hab Hbc.
  pose proof (leb_trans _ _ _ (ltb_true_leb _ _ Hab) (ltb_true_leb _ _ Hbc))
    as Hac.
  unfold String.ltb, String.leb in *.
  destruct (String.compare a c) eqn:Hcmp; try done.
  apply String.compare_eq_iff in Hcmp as ->.
  rewrite (String.compare_antisym b c) in Hbc.
  by destruct (String.compare c b).
Qed.

Lemma insert_asc_perm (x : string) (l : list string) :
  Py.insert_asc x l ≡ₚ x :: l.
Proof.
  induction l as [|y r IH]; cbn; [done|].
  destruct (String.ltb y x); [|done].
  rewrite IH. apply Permutation_swap.
Qed.

Lemma sorted_cons (x : string) (l : list string) :
  Py.sorted (x :: l) = Py.insert_asc x (Py.sorted l).
Proof. reflexivity. Qed.

Lemma sorted_perm (l : list string) : Py.sorted l ≡ₚ l.
Proof.
  induction l as [|x l IH]; [done|].
  by rewrite sorted_cons, insert_asc_perm, IH.
Qed.

Lemma insert_asc_sorted (x : string) (l : list string) :
  x ∉ l -> StronglySorted asc l -> StronglySorted asc (Py.insert_asc x l).
Proof.
  intros Hx Hl. induction Hl as [|y r Hr IH Hy]; cbn.
  - by repeat constructor.
  - apply not_elem_of_cons in Hx as [Hxy Hxr].
    destruct (String.ltb y x) eqn:Hlt.
    + constructor; [by apply IH|].
      rewrite insert_asc_perm. by constructor.
    + assert (Hxlty : asc x y).
      { unfold asc, String.ltb in *.
        rewrite (String.compare_antisym y x) in Hlt.
        destruct (String.compare x y) eqn:Hcmp; try done.
        by apply String.compare_eq_iff in Hcmp. }
      constructor; [by constructor|]. constructor; [done|].
      eapply Forall_impl; [exact Hy|].
      intros z Hz. unfold asc in *. by eapply ltb_trans.
Qed.

Lemma sorted_sorted (l : list string) :
  NoDup l -> StronglySorted asc (Py.sorted l).
Proof.
  induction 1 as [|x l Hx _ IH]; [constructor|].
  rewrite sorted_cons. apply insert_asc_sorted; [|done].
  by rewrite sorted_perm.
Qed.

(** X5. [get_categories] returns the categories of the stored records,
    each once, in strictly ascending order, and does not change the
    state. Categories that differ in letter case are different entries. *)
Theorem get_categories_sorted_distinct {A : Type} (w : World A) :
  exists cats,
    get_categories w = (Ok cats, w) /\
    StronglySorted asc cats /\
    NoDup cats /\
    forall c, c ∈ cats <-> exists exp, exp ∈ expenses w /\ category exp = c.
Proof.
  eexists. split; [reflexivity|].
  set (cats := list_to_set (map category (expenses w)) : gset string).
  split; [apply sorted_sorted, NoDup_elements|].
  split; [rewrite sorted_perm; apply NoDup_elements|].
  intros c. rewrite sorted_perm, elem_of_elements. subst cats.
  rewrite elem_of_list_to_set, list_elem_of_fmap.
  split; [intros (exp & -> & Hin)|intros (exp & Hin & <-)]; by exists exp.
Qed.

(** X6. [get_categories] and the [categories] mapping of [get_summary]
    name the same categories: a text is in the one exactly when it is a
    key of the other, and both have one entry for each. *)
Theorem categories_are_summary_keys {A : Type} `{Number A} (w : World A) :
  exists cats s,
    get_categories w = (Ok cats, w) /\
    get_summary w = (Ok s, w) /\
    (forall c, c ∈ cats <-> c ∈ Py.dict_keys (categories s)) /\
    length cats = length (categories s).
Proof.
  destruct (get_categories_read_only w) as [cats Hcats].
  destruct (get_summary_read_only w) as [s Hs].
  exists cats, s. split; [done|]. split; [done|].
  assert (Hkeys : Py.dict_keys (categories s)
                  = Py.dict_keys (fold_left tally_step (expenses w) [])).
  { unfold get_summary in Hs. unfold_monad_in Hs.
    destruct (expenses w) as [|exp es]; by injection Hs as <-. }
  assert (Hnd : NoDup (Py.dict_keys (categories s))).
  { rewrite Hkeys. apply tally_keys_NoDup. constructor. }
  assert (Hin : forall c, c ∈ cats <-> c ∈ Py.dict_keys (categories s)).
  { intros c. unfold get_categories in Hcats. unfold_monad_in Hcats.
    injection Hcats as <-.
    rewrite sorted_perm, elem_of_elements, elem_of_list_to_set.
    rewrite Hkeys, tally_keys_elem. cbn [Py.dict_keys map].
    rewrite elem_of_nil. tauto. }
  split; [exact Hin|].
  assert (Hndc : NoDup cats).
  { unfold get_categories in Hcats. unfold_monad_in Hcats.
    injection Hcats as <-.
    rewrite sorted_perm. apply NoDup_elements. }
  transitivity (length (Py.dict_keys (categories s)));
    [|unfold Py.dict_keys; by rewrite length_map].
  apply Permutation_length, NoDup_Permutation; done.
Qed.

(** ** summary after add *)

Lemma tally_snoc {A : Type} `{Number A} (es : list (Expense A))
    (exp : Expense A) :
  tally (es ++ [exp]) = tally_step (tally es) exp.
Proof. rewrite !tally_unfold. by rewrite fold_left_app. Qed.

Lemma sum_snoc {A : Type} `{Number A} (xs : list A) (x : A) :
  Py.sum (xs ++ [x]) = add (Py.sum xs) x.
Proof. unfold Py.sum. by rewrite fold_left_app. Qed.

(** X7. After [add_expense], the summary has one more record, its total
    is the old total plus the new amount, the total of the (stripped)
    category of the new record has grown by the new amount, starting from
    zero if the category is new, and the totals of the other categories
    are the same. *)
Theorem summary_after_add (uuid4 today now : string) (x : float)
    (cat desc : string) (expense_date : option string) (w : World float) :
  exists s w1 s1,
    get_summary w = (Ok s, w) /\
    (add_expense uuid4 today now x cat desc expense_date w).2 = w1 /\
    get_summary w1 = (Ok s1, w1) /\
    count s1 = S (count s) /\
    total s1 = PrimFloat.add (total s) x /\
    forall c,
      Py.dict_get (categories s1) c 0%float
      = if decide (PyStr.strip cat = c)
        then PrimFloat.add (Py.dict_get (categories s) c 0%float) x
        else Py.dict_get (categories s) c 0%float.
Proof.
  destruct (get_summary_read_only w) as [s Hs].
  exists s. eexists _, _. split; [exact Hs|]. split; [reflexivity|].
  set (exp := mkExpense (short_id uuid4) x (PyStr.strip cat) (PyStr.strip desc)
                (default today expense_date) now).
  assert (Hold : total s = Py.sum (map amount (expenses w)) /\
                 count s = length (expenses w) /\
                 categories s = tally (expenses w)).
  { unfold get_summary in Hs. unfold_monad_in Hs.
    destruct (expenses w) as [|e es]; by injection Hs as <-. }
  destruct Hold as (Htotal & Hcount & Hcats).
  unfold add_expense. unfold_monad. cbn [snd]. fold exp.
  unfold get_summary. unfold_monad. cbn [expenses].
  destruct (expenses w ++ [exp]) as [|e es] eqn:Hes.
  { by destruct (expenses w). }
  rewrite <- Hes. split; [reflexivity|].
  cbn [count total categories].
  split; [rewrite length_app, Hcount; cbn; lia|].
  split; [rewrite map_app; cbn [map]; by rewrite sum_snoc, Htotal|].
  intros c. rewrite tally_snoc, Hcats. unfold tally_step.
  rewrite dict_get_set. cbn [category amount]. rewrite <- Hcats.
  destruct (decide (PyStr.strip cat = c)) as [<-|Hne]; reflexivity.
Qed.

(** ** date ranges *)

Lemma filter_sublist_impl {X : Type} (P Q : X -> Prop)
    `{!forall x, Decision (P x)} `{!forall x, Decision (Q x)} (l : list X) :
  (forall x, P x -> Q x) -> sublist (filter P l) (filter Q l).
Proof.
  intros HPQ. induction l as [|x l IH]; [done|].
  rewrite !filter_cons.
  destruct (decide (P x)) as [HP|HP].
  - rewrite decide_True by auto. by constructor.
  - destruct (decide (Q x)); [by constructor|done].
Qed.

(** X8. A date range whose end lies before its start selects nothing. *)
Theorem date_range_reversed_is_empty {A : Type} (start_date end_date : string)
    (w : World A) :
  String.ltb end_date start_date = true ->
  get_expenses_by_date_range start_date end_date w = (Ok [], w).
Proof.
  intros Hrev. unfold get_expenses_by_date_range. unfold_monad.
  f_equal. f_equal.
  induction (expenses w) as [|exp es IH]; [done|].
  rewrite filter_cons_False; [done|].
  unfold PyStr.le. intros [H1 H2]%andb_true_iff.
  pose proof (leb_trans _ _ _ H1 H2) as Hle.
  unfold String.ltb, String.leb in *.
  rewrite (String.compare_antisym start_date end_date) in Hle.
  by destruct (String.compare end_date start_date).
Qed.

Lemma date_range_reversed_is_empty_witness :
  get_expenses_by_date_range "2024-02-01" "2024-01-01" rounding_world
  = (Ok [], rounding_world).
Proof. apply date_range_reversed_is_empty. reflexivity. Defined.

(** X9. What a date range selects, a wider range selects too, in the same
    order. *)
Theorem date_range_monotone {A : Type} (start1 end1 start2 end2 : string)
    (w : World A) :
  String.leb start2 start1 = true -> String.leb end1 end2 = true ->
  exists narrow wide,
    get_expenses_by_date_range start1 end1 w = (Ok narrow, w) /\
    get_expenses_by_date_range start2 end2 w = (Ok wide, w) /\
    sublist narrow wide.
Proof.
  intros Hstart Hend. eexists _, _. split; [reflexivity|].
  split; [reflexivity|].
  apply filter_sublist_impl. intros exp [H1 H2]%andb_true_iff.
  unfold PyStr.le in *. apply andb_true_iff.
  split; by eapply leb_trans.
Qed.

Lemma date_range_monotone_witness :
  exists narrow wide,
    get_expenses_by_date_range "2024-01-16" "2024-01-16" rounding_world
    = (Ok narrow, rounding_world) /\
    get_expenses_by_date_range "2024-01-01" "2024-01-31" rounding_world
    = (Ok wide, rounding_world) /\
    sublist narrow wide.
Proof.
  apply date_range_monotone; reflexivity.
Defined.

(** ** categories and letter case *)

Lemma lower_ascii_idempotent (c : ascii) :
  PyStr.lower_ascii (PyStr.lower_ascii c) = PyStr.lower_ascii c.
Proof.
  destruct c as [[] [] [] [] [] [] [] []]; vm_compute; reflexivity.
Qed.

Lemma lower_idempotent (s : string) :
  PyStr.lower (PyStr.lower s) = PyStr.lower s.
Proof.
  induction s as [|c s IH]; [done|].
  cbn [PyStr.lower]. by rewrite lower_ascii_idempotent, IH.
Qed.

(** X10. Filtering by category ignores letter case: two texts with the
    same lower-case form select the same records, the lower-case form of
    a text selects what the text selects, and every stored record is
    selected by its own category written in any letter case. *)
Theorem category_filter_ignores_case {A : Type} (cat cat' : string)
    (w : World A) :
  PyStr.lower cat = PyStr.lower cat' ->
  get_expenses_by_category cat w = get_expenses_by_category cat' w /\
  get_expenses_by_category (PyStr.lower cat) w = get_expenses_by_category cat w /\
  forall exp,
    exp ∈ expenses w -> PyStr.lower (category exp) = PyStr.lower cat ->
    exists selected,
      get_expenses_by_category cat' w = (Ok selected, w) /\ exp ∈ selected.
Proof.
  intros Hsame. unfold get_expenses_by_category. unfold_monad.
  split; [by rewrite Hsame|]. split; [by rewrite lower_idempotent|].
  intros exp Hin Hcat. eexists. split; [reflexivity|].
  apply list_elem_of_filter. split; [congruence|done].
Qed.

Lemma category_filter_ignores_case_witness :
  get_expenses_by_category "RENT" rounding_world
  = get_expenses_by_category "rent" rounding_world.
Proof.
  apply (category_filter_ignores_case "RENT" "rent" rounding_world).
  reflexivity.
Defined.

(** ** validate, again *)

(** X11. [validate_expense] reports every test that fails and nothing
    else: the message for an amount that is no number, for an amount that
    is [<= 0], for a blank category and for a blank description are each
    present exactly when that is the case. The messages come in this
    order, none twice, and at most one of the two amount messages, so at
    most three in all. *)
Theorem validate_expense_reports_each_failure
    (amount category description : string) :
  let errors := validate_expense amount category description in
  sublist errors validation_messages /\
  length errors <= 3 /\
  ("Amount must be a valid number" ∈ errors <->
     PyFloat.float_of_str amount = None) /\
  ("Amount must be positive" ∈ errors <->
     exists x, PyFloat.float_of_str amount = Some x /\
               PrimFloat.leb x 0 = true) /\
  ("Category is required" ∈ errors <-> PyStr.strip category = "") /\
  ("Description is required" ∈ errors <-> PyStr.strip description = "").
Proof.
  intros errors.
  destruct (validate_expense_errors amount category description)
    as (Hnum & Hpos & Hcat & Hdesc & _).
  split; [|split; [|done]].
  - subst errors. unfold validate_expense, validation_messages.
    destruct (PyFloat.float_of_str amount) as [x|];
      [destruct (PrimFloat.leb x 0)|];
      destruct (PyStr.falsy (PyStr.strip category));
      destruct (PyStr.falsy (PyStr.strip description)); cbn [app];
      repeat first [apply sublist_nil | apply sublist_skip; done
                   | apply sublist_skip | apply sublist_cons].
  - subst errors. unfold validate_expense.
    destruct (PyFloat.float_of_str amount) as [x|];
      [destruct (PrimFloat.leb x 0)|];
      destruct (PyStr.falsy (PyStr.strip category));
      destruct (PyStr.falsy (PyStr.strip description)); cbn; lia.
Qed.

(** [float] leaves a text alone that neither starts nor ends with the
    white space it skips. *)
Section FloatStrip.
Implicit Types (s t : string) (c : ascii).

Lemma float_lstrip_first s c :
  first_char (PyFloat.lstrip s) = Some c -> PyFloat.is_space c = false.
Proof.
  induction s as [|c' s IH]; [done|].
  cbn [PyFloat.lstrip]. destruct (PyFloat.is_space c') eqn:Hc'; [done|].
  cbn. by intros [= <-].
Qed.

Lemma float_rstrip_last s c :
  last_char (PyFloat.rstrip s) = Some c -> PyFloat.is_space c = false.
Proof.
  induction s as [|c' s IH]; [done|].
  cbn [PyFloat.rstrip]. destruct (PyFloat.rstrip s) as [|c'' r] eqn:Hr.
  - destruct (PyFloat.is_space c') eqn:Hc'; [done|]. cbn. by intros [= <-].
  - intros Hlast. apply IH. exact Hlast.
Qed.

Lemma float_rstrip_first s c :
  first_char (PyFloat.rstrip s) = Some c -> first_char s = Some c.
Proof.
  destruct s as [|c' s]; [done|]. cbn [PyFloat.rstrip].
  destruct (PyFloat.rstrip s); [destruct (PyFloat.is_space c')|]; done.
Qed.

Lemma float_lstrip_fixed t :
  (forall c, first_char t = Some c -> PyFloat.is_space c = false) ->
  PyFloat.lstrip t = t.
Proof.
  destruct t as [|c t]; [done|]. intros Hfirst. cbn.
  by rewrite (Hfirst c eq_refl).
Qed.

Lemma float_rstrip_fixed t :
  (forall c, last_char t = Some c -> PyFloat.is_space c = false) ->
  PyFloat.rstrip t = t.
Proof.
  induction t as [|c t IH]; [done|]. intros Hlast. cbn [PyFloat.rstrip].
  destruct t as [|c' t'].
  - cbn. by rewrite (Hlast c eq_refl).
  - rewrite IH; [done|]. intros c0 Hc0. apply Hlast. exact Hc0.
Qed.

Lemma float_strip_idempotent s :
  PyFloat.strip (PyFloat.strip s) = PyFloat.strip s.
Proof.
  unfold PyFloat.strip at 1.
  rewrite float_lstrip_fixed, float_rstrip_fixed; [done| |].
  - apply float_rstrip_last.
  - intros c Hc%float_rstrip_first. by eapply float_lstrip_first.
Qed.

(** [float] gives the same for a text and for what is left of it without
    the white space [float] skips. *)
Lemma float_of_str_strip s :
  PyFloat.float_of_str (PyFloat.strip s) = PyFloat.float_of_str s.
Proof. unfold PyFloat.float_of_str. by rewrite float_strip_idempotent. Qed.

End FloatStrip.

(** X12. White space around the category and the description, and TAB,
    LF, VT, FF, CR and spaces around the amount text, do not change the
    verdict of [validate_expense]. *)
Theorem validate_expense_ignores_outer_space
    (amount category description : string) :
  validate_expense (PyFloat.strip amount) (PyStr.strip category)
    (PyStr.strip description)
  = validate_expense amount category description.
Proof.
  unfold validate_expense.
  by rewrite float_of_str_strip, !strip_idempotent.
Qed.

(** The separators FS, GS, RS and US are another matter: [str.strip]
    removes them, [float] does not skip them. The amount text made of FS
    and [5] is rejected, while its stripped form [5] is accepted. *)
Lemma validate_expense_separator_not_skipped :
  let amount := String (ascii_of_nat 28) "5" in
  PyStr.strip amount = "5" /\
  validate_expense amount "Food" "Lunch" = ["Amount must be a valid number"] /\
  validate_expense (PyStr.strip amount) "Food" "Lunch" = [].
Proof. repeat split; vm_compute; reflexivity. Qed.

(** ** save *)

(** What [save_expenses] does, by whether the data file can be opened. *)
Lemma save_expenses_run (w : World float) :
  save_expenses w =
    match open_w_error (fs w) (data_file w) with
    | None =>
        (Ok true,
         mkWorld (data_file w) (expenses w)
           (<[data_file w := File true [JsonDoc (expenses w)]]> (fs w))
           (stdout w))
    | Some e => (Ok false, printed w ["Error saving expenses: " +:+ exn_str e])
    end.
Proof.
  destruct w as [path es files out].
  unfold save_expenses, open_w, write, open_w_error, printed. unfold_monad.
  cbn beta iota delta [data_file expenses fs stdout].
  destruct (PyStr.falsy path); [done|].
  destruct (files !! path) as [[|[|] content]|] eqn:Hlook; try done.
  - cbn. rewrite lookup_insert_eq. cbn. by rewrite insert_insert_eq.
  - cbn. rewrite lookup_insert_eq. cbn. by rewrite insert_insert_eq.
Qed.


(** ** export, again *)



(** ** import, again *)

(** Whatever the rows are, the loop only prints, and when it runs to its
    end the list it has built extends the one it started from by records
    whose amounts passed the test. *)
Lemma import_rows_any (now : nat -> string) (rows : list row) :
  forall (i : nat) (acc : list (Expense float)) (w : World float),
    exists res out,
      import_rows now i rows acc w = (res, printed w out) /\
      match res with
      | Ok (Some l) => exists built, l = acc ++ built /\ Forall passed built
      | _ => True
      end.
Proof.
  induction rows as [|r rest IH]; intros i acc w.
  { exists (Ok (Some acc)), []. rewrite printed_nil. split; [done|].
    exists []. by rewrite app_nil_r. }
  cbn [import_rows]. destruct (has_required r); cbn [negb].
  2: { exists (Ok None), [" Invalid CSV format - missing required columns"].
       done. }
  unfold float_of_field, strip_field, str_field.
  pose (skip := " Skipping invalid amount: " +:+ show_field (item r "amount")).
  assert (Hskip : exists res out,
            import_rows now (S i) rest acc (printed w [skip])
            = (res, printed w out) /\
            match res with
            | Ok (Some l) => exists built, l = acc ++ built /\ Forall passed built
            | _ => True
            end).
  { destruct (IH (S i) acc (printed w [skip])) as (res & out & Hrun & Hres).
    exists res, ([skip] ++ out). by rewrite <- printed_printed. }
  destruct (item r "amount") as [a|]; unfold_monad.
  2: { by exists (Raise TypeError), []; rewrite printed_nil. }
  destruct (PyFloat.float_of_str a) as [x|]; [|exact Hskip].
  destruct (PrimFloat.leb x 0) eqn:Hle; [exact Hskip|].
  destruct (item r "category") as [c|].
  2: { by exists (Raise AttributeError), []; rewrite printed_nil. }
  destruct (item r "description") as [d|].
  2: { by exists (Raise AttributeError), []; rewrite printed_nil. }
  destruct (item r "id") as [row_id|].
  2: { by exists IllTyped, []; rewrite printed_nil. }
  destruct (item r "date") as [row_date|].
  2: { by exists IllTyped, []; rewrite printed_nil. }
  destruct (default (Some (now i)) (r !! "created_at")) as [created|].
  2: { by exists IllTyped, []; rewrite printed_nil. }
  destruct (IH (S i)
              (acc ++ [mkExpense row_id x (PyStr.strip c) (PyStr.strip d)
                         row_date created]) w)
    as (res & out & Hrun & Hres).
  exists res, out. split; [exact Hrun|].
  destruct res as [[l|]| |]; try done.
  destruct Hres as (built & -> & Hbuilt).
  eexists (_ :: built). rewrite <- app_assoc. split; [done|].
  by constructor.
Qed.

(** What [import_expenses] does, for every source. *)
Lemma import_expenses_run (now : nat -> string) (filename : string)
    (src : csv_source) (w : World float) :
  exists res imported out,
    import_expenses now filename src w
    = (res,
       mkWorld (data_file w) (expenses w ++ imported)
         (match imported, open_w_error (fs w) (data_file w) with
          | _ :: _, None =>
              <[data_file w := File true [JsonDoc (expenses w ++ imported)]]>
                (fs w)
          | _, _ => fs w
          end)
         (stdout w ++ out)) /\
    (res = Ok tt \/ res = IllTyped) /\
    Forall passed imported /\
    (imported ≠ [] -> res = Ok tt) /\
    ((exists e, src = COpenError e) \/
     (exists records e, src = CRecords records (Some e)) ->
     imported = []) /\
    (src = COpenError FileNotFoundError ->
     out = [" File '" +:+ filename +:+ "' not found"]).
Proof.
  assert (Hnone : forall res out,
            (res = Ok tt \/ res = @IllTyped unit) ->
            (src = COpenError FileNotFoundError ->
             out = [" File '" +:+ filename +:+ "' not found"]) ->
            exists res0 imported out0,
              (res, mkWorld (data_file w) (expenses w) (fs w) (stdout w ++ out))
              = (res0,
                 mkWorld (data_file w) (expenses w ++ imported)
                   (match imported, open_w_error (fs w) (data_file w) with
                    | _ :: _, None =>
                        <[data_file w := File true [JsonDoc (expenses w ++ imported)]]>
                          (fs w)
                    | _, _ => fs w
                    end)
                   (stdout w ++ out0)) /\
              (res0 = Ok tt \/ res0 = IllTyped) /\
              Forall passed imported /\
              (imported ≠ [] -> res0 = Ok tt) /\
              ((exists e, src = COpenError e) \/
               (exists records e, src = CRecords records (Some e)) ->
               imported = []) /\
              (src = COpenError FileNotFoundError ->
               out0 = [" File '" +:+ filename +:+ "' not found"])).
  { intros res out Hres Hout. exists res, [], out.
    rewrite app_nil_r. cbn beta iota.
    split; [reflexivity|]. split; [exact Hres|]. split; [constructor|].
    split; [done|]. split; [done|]. exact Hout. }
  unfold import_expenses.
  destruct src as [e|records failure].
  - unfold_monad. cbn beta iota.
    destruct e; apply Hnone; try (by left); try done.
  - destruct (import_rows_any now (dict_reader records) 0 [] w)
      as (res0 & out & Hrun & Hres0).
    unfold_monad. cbv beta. rewrite Hrun.
    destruct res0 as [[l|]|e|].
    + destruct Hres0 as (built & -> & Hbuilt). cbn [app].
      destruct failure as [e|].
      { destruct e; settle_world; apply Hnone; try (by left); done. }
      destruct built as [|exp built].
      { settle_world. apply Hnone; [by left|done]. }
      cbv beta iota. rewrite save_expenses_run.
      cbn [data_file expenses fs stdout printed].
      destruct (open_w_error (fs w) (data_file w)) as [e|].
      * exists (Ok tt), (exp :: built). eexists.
        cbn [data_file expenses fs stdout printed].
        rewrite <- !app_assoc. split; [reflexivity|].
        split; [by left|]. split; [done|]. split; [done|].
        split; [|done]. intros [[e' [=]]|(records' & e' & [=])].
      * exists (Ok tt), (exp :: built). eexists.
        cbn [data_file expenses fs stdout].
        rewrite <- !app_assoc. split; [reflexivity|].
        split; [by left|]. split; [done|]. split; [done|].
        split; [|done]. intros [[e' [=]]|(records' & e' & [=])].
    + destruct failure; settle_world; apply Hnone; try (by left); done.
    + destruct e; settle_world; apply Hnone; try (by left); done.
    + settle_world. apply Hnone; [by right|done].
Qed.





(** X16. An import that cannot be read to its end adds nothing: when the
    file cannot be opened, or the reader fails after some lines, the store
    and the files stay as they are, even if lines before the failure were
    valid. A missing file is reported by name. *)
Theorem import_expenses_failed_read_adds_nothing (now : nat -> string)
    (filename : string) (w : World float) :
  (forall e,
     let w' := (import_expenses now filename (COpenError e) w).2 in
     expenses w' = expenses w /\ fs w' = fs w) /\
  (forall records e,
     let w' := (import_expenses now filename (CRecords records (Some e)) w).2 in
     expenses w' = expenses w /\ fs w' = fs w) /\
  import_expenses now filename (COpenError FileNotFoundError) w
  = (Ok tt, printed w [" File '" +:+ filename +:+ "' not found"]).
Proof.
  split; [|split].
  - intros e.
    destruct (import_expenses_run now filename (COpenError e) w)
      as (res & imported & out & Hrun & _ & _ & _ & Hnil & _).
    rewrite Hrun, Hnil by (left; by exists e). cbn. by rewrite app_nil_r.
  - intros records e.
    destruct (import_expenses_run now filename (CRecords records (Some e)) w)
      as (res & imported & out & Hrun & _ & _ & _ & Hnil & _).
    rewrite Hrun, Hnil by (right; by exists records, e).
    cbn. by rewrite app_nil_r.
  - reflexivity.
Qed.

(** ** manual entry *)

Lemma print_header_run (title : string) (w : World float) :
  print_header title w = (Ok tt, printed w (header_lines title)).
Proof.
  unfold print_header. unfold_monad. unfold printed, header_lines.
  cbn [data_file expenses fs stdout]. by rewrite <- !app_assoc.
Qed.

Lemma print_errors_run (errors : list string) (w : World float) :
  print_errors errors w
  = (Ok tt, printed w (map (fun error => "  - " +:+ error) errors)).
Proof.
  revert w. induction errors as [|error rest IH]; intros w.
  - cbn. unfold ret. by rewrite printed_nil.
  - cbn [print_errors map]. unfold bind, print at 1. rewrite IH.
    unfold printed. cbn [data_file expenses fs stdout].
    by rewrite <- app_assoc.
Qed.

Lemma print_expense_details_run (expense : Expense float) (w : World float) :
  print_expense_details expense w = (Ok tt, printed w (detail_lines expense)).
Proof.
  unfold print_expense_details. unfold_monad. unfold printed, detail_lines.
  cbn [data_file expenses fs stdout]. by rewrite <- !app_assoc.
Qed.

(** What [add_expense_manually] does when its four questions are
    answered. *)
Lemma add_expense_manually_answered (uuid4 today now a c d dt : string)
    (rest : list typed) (w : World float) :
  add_expense_manually uuid4 today now
    (Line a :: Line c :: Line d :: Line dt :: rest) w
  = let w0 := printed w (header_lines "Add Expense Manually") in
    match validate_expense (PyStr.strip a) (PyStr.strip c) (PyStr.strip d) with
    | [] =>
        match PyFloat.float_of_str (PyStr.strip a) with
        | Some x =>
            let exp := entered uuid4 today now x c d dt in
            match open_w_error (fs w) (data_file w) with
            | None =>
                (Ok tt,
                 mkWorld (data_file w) (expenses w ++ [exp])
                   (<[data_file w := File true [JsonDoc (expenses w ++ [exp])]]>
                      (fs w))
                   (stdout w0 ++ " Expense added successfully!"
                      :: detail_lines exp))
            | Some e =>
                (Ok tt,
                 mkWorld (data_file w) (expenses w ++ [exp]) (fs w)
                   (stdout w0 ++ ["Error saving expenses: " +:+ exn_str e;
                                  " Failed to save expense"]))
            end
        | None => (Ok tt, printed w0 ["Error: " +:+ exn_str ValueError])
        end
    | error :: errors =>
        (Ok tt,
         printed w0
           ("Validation errors:"
              :: map (fun error => "  - " +:+ error) (error :: errors)))
    end.
Proof.
  unfold add_expense_manually. cbn [read_lines].
  unfold bind at 1. rewrite print_header_run.
  set (w0 := printed w (header_lines "Add Expense Manually")). cbn zeta.
  unfold try_except.
  destruct (validate_expense (PyStr.strip a) (PyStr.strip c) (PyStr.strip d))
    as [|error errors].
  - destruct (PyFloat.float_of_str (PyStr.strip a)) as [x|].
    + unfold bind at 1. unfold ret at 1. unfold bind at 1.
      unfold add_expense at 1. unfold_monad.
      cbn beta iota delta [data_file expenses fs stdout].
      rewrite !strip_idempotent, save_expenses_run.
      cbn [data_file expenses fs stdout w0 printed].
      unfold entered. cbn [default].
      destruct (open_w_error (fs w) (data_file w)) as [e|].
      * unfold printed. cbn [data_file expenses fs stdout].
        rewrite <- !app_assoc. reflexivity.
      * rewrite print_expense_details_run. unfold printed.
        cbn [data_file expenses fs stdout].
        rewrite <- !app_assoc. reflexivity.
    + unfold_monad. reflexivity.
  - unfold bind at 1. unfold print at 1. rewrite print_errors_run.
    unfold printed. cbn [data_file expenses fs stdout].
    by rewrite <- !app_assoc.
Qed.

(** X17. A manual entry that [validate_expense] rejects changes neither
    the store nor any file: after the header, the line
    [Validation errors:] and one line for each error are printed, and the
    method returns. *)
Theorem add_expense_manually_rejected (uuid4 today now a c d dt : string)
    (rest : list typed) (w : World float) :
  let errors :=
    validate_expense (PyStr.strip a) (PyStr.strip c) (PyStr.strip d) in
  errors ≠ [] ->
  add_expense_manually uuid4 today now
    (Line a :: Line c :: Line d :: Line dt :: rest) w
  = (Ok tt,
     printed w
       (header_lines "Add Expense Manually" ++
        "Validation errors:" :: map (fun error => "  - " +:+ error) errors)).
Proof.
  intros errors Herr. rewrite add_expense_manually_answered. fold errors.
  destruct errors as [|error errors']; [done|].
  cbn zeta. by rewrite printed_printed.
Qed.

Lemma add_expense_manually_rejected_witness :
  add_expense_manually "3f2a9c1e-0000-4000-8000-000000000000" "2024-01-15"
    "2024-01-15T12:00:00"
    [Line "-5"; Line " "; Line "Lunch"; Line ""] rounding_world
  = (Ok tt,
     printed rounding_world
       (header_lines "Add Expense Manually" ++
        ["Validation errors:"; "  - Amount must be positive";
         "  - Category is required"])).
Proof.
  apply (add_expense_manually_rejected "3f2a9c1e-0000-4000-8000-000000000000"
           "2024-01-15" "2024-01-15T12:00:00" "-5" " " "Lunch" "" []
           rounding_world).
  vm_compute. discriminate.
Defined.



(** The answer made of FS and [5] is such an entry: [str.strip] removes
    the separator, [validate_expense] accepts [5], and the amount 5 is
    added, although [float] would reject the answer as it was typed. *)
Lemma add_expense_manually_strips_separator :
  let answer := String (ascii_of_nat 28) "5" in
  PyFloat.float_of_str answer = None /\
  expenses
    (add_expense_manually "3f2a9c1e-0000-4000-8000-000000000000" "2024-01-15"
       "2024-01-15T12:00:00"
       [Line answer; Line "Food"; Line "Lunch"; Line ""] fresh_world).2
  = [mkExpense "3f2a9c1e" 5%float "Food" "Lunch" "2024-01-15"
       "2024-01-15T12:00:00"].
Proof. split; vm_compute; reflexivity. Qed.

(** X19. [add_expense_manually] never raises, whatever is typed. When
    the input is interrupted or ends before the fourth answer, only a
    message is printed: the store and the files stay as they are. In
    every case the earlier records stay in place and at most one record
    is added. *)
Theorem add_expense_manually_never_raises (uuid4 today now : string)
    (answers : list typed) (w : World float) :
  exists w',
    add_expense_manually uuid4 today now answers w = (Ok tt, w') /\
    data_file w' = data_file w /\
    (expenses w' = expenses w \/ exists exp, expenses w' = expenses w ++ [exp]) /\
    (forall stop, read_lines 4 answers = inr stop ->
                  expenses w' = expenses w /\ fs w' = fs w).
Proof.
  destruct (read_lines 4 answers) as [lines|stop] eqn:Hread.
  - assert (Hfour : exists a c d dt rest,
              answers = Line a :: Line c :: Line d :: Line dt :: rest).
    { destruct answers as [|[a| |] [|[c| |] [|[d| |] [|[dt| |] rest]]]];
        try discriminate. by exists a, c, d, dt, rest. }
    destruct Hfour as (a & c & d & dt & rest & ->).
    rewrite add_expense_manually_answered. cbn zeta.
    destruct (validate_expense (PyStr.strip a) (PyStr.strip c) (PyStr.strip d)).
    + destruct (PyFloat.float_of_str (PyStr.strip a)) as [x|].
      * destruct (open_w_error (fs w) (data_file w));
          eexists; (split; [reflexivity|]); cbn [data_file expenses fs];
          (split; [done|]); (split; [right; by eexists|done]).
      * eexists. split; [reflexivity|]. cbn. split; [done|].
        split; [by left|done].
    + eexists. split; [reflexivity|]. cbn. split; [done|].
      split; [by left|done].
  - unfold add_expense_manually. rewrite Hread.
    unfold bind. rewrite print_header_run.
    destruct stop; eexists; (split; [reflexivity|]); cbn;
      (split; [done|]); (split; [by left|done]).
Qed.

(** ** the category listing *)

Lemma list_category_lines_run (es_all : list string) (w : World float) :
  list_category_lines es_all w
  = (Ok tt, printed w (map (category_line (expenses w)) es_all)).
Proof.
  revert w. induction es_all as [|cat rest IH]; intros w.
  - cbn. unfold ret. by rewrite printed_nil.
  - cbn [list_category_lines map]. unfold get_expenses_by_category.
    unfold_monad. rewrite IH. unfold printed.
    cbn [data_file expenses fs stdout]. by rewrite <- app_assoc.
Qed.

(** Each record is counted at least once when every category is listed. *)
Lemma counted_under_covers (cats : list string) (es : list (Expense float)) :
  Forall (fun exp => category exp ∈ cats) es ->
  length es <= sum_list_with (fun cat => length (counted_under es cat)) cats.
Proof.
  induction 1 as [|exp es Hin _ IH].
  { cbn [length]. lia. }
  assert (Hstep : forall cs,
            sum_list_with (fun cat => length (counted_under (exp :: es) cat)) cs
            >= sum_list_with (fun cat => length (counted_under es cat)) cs
               + (if decide (category exp ∈ cs) then 1 else 0)).
  { induction cs as [|c cs IHcs].
    { rewrite decide_False by apply not_elem_of_nil. cbn. lia. }
    cbn [sum_list_with]. unfold counted_under at 1. rewrite filter_cons.
    fold (counted_under es c).
    destruct (decide (category exp ∈ c :: cs)) as [Hc|Hc].
    - destruct (decide (category exp = c)) as [Heq|Hne].
      + rewrite decide_True by (by rewrite Heq). cbn [length].
        destruct (decide (category exp ∈ cs)); lia.
      + rewrite decide_True in IHcs
          by (apply elem_of_cons in Hc as [|]; done).
        destruct (decide (PyStr.lower (category exp) = PyStr.lower c));
          cbn [length]; lia.
    - rewrite decide_False in IHcs
        by (intros Hcs; apply Hc; by apply list_elem_of_further).
      destruct (decide (PyStr.lower (category exp) = PyStr.lower c));
        cbn [length]; lia. }
  specialize (Hstep cats). rewrite decide_True in Hstep by done.
  cbn [length]. lia.
Qed.

(** X20. [list_categories] never raises and changes nothing but the
    output. With an empty store it prints [No categories found.];
    otherwise it prints the header and one line for each distinct
    category, in ascending order. A line counts (and sums) the records
    whose category is the listed one up to letter case, so every line
    counts at least one record, and the counts add up to at least the
    number of records: a record is counted once for each listed spelling
    of its category. *)
Theorem list_categories_outcome (w : World float) :
  exists cats,
    get_categories w = (Ok cats, w) /\
    list_categories w
    = (Ok tt,
       printed w
         (match cats with
          | [] => ["No categories found."]
          | _ => header_lines "Categories" ++
                 map (category_line (expenses w)) cats
          end)) /\
    (cats = [] <-> expenses w = []) /\
    Forall (fun cat => 1 <= length (counted_under (expenses w) cat)) cats /\
    length (expenses w)
    <= sum_list_with (fun cat => length (counted_under (expenses w) cat)) cats.
Proof.
  destruct (get_categories_read_only w) as [cats Hcats].
  exists cats. split; [exact Hcats|].
  assert (Hin : forall c, c ∈ cats <->
                          exists exp, exp ∈ expenses w /\ category exp = c).
  { intros c. unfold get_categories in Hcats. unfold_monad_in Hcats.
    injection Hcats as <-.
    rewrite sorted_perm, elem_of_elements, elem_of_list_to_set.
    rewrite list_elem_of_fmap.
    split; [intros (exp & -> & He)|intros (exp & He & <-)]; by exists exp. }
  assert (Hnd : NoDup cats).
  { unfold get_categories in Hcats. unfold_monad_in Hcats.
    injection Hcats as <-. rewrite sorted_perm. apply NoDup_elements. }
  split; [|split; [|split]].
  - unfold list_categories, bind at 1. rewrite Hcats.
    destruct cats as [|cat cats]; [done|].
    unfold bind. rewrite print_header_run, list_category_lines_run.
    by rewrite printed_printed.
  - split.
    + intros ->. destruct (expenses w) as [|exp es]; [done|].
      exfalso. eapply not_elem_of_nil, Hin. exists exp.
      split; [apply list_elem_of_here|done].
    + intros Hes. destruct cats as [|cat cats]; [done|].
      destruct (proj1 (Hin cat) (list_elem_of_here _ _)) as (exp & He & _).
      rewrite Hes in He. by apply elem_of_nil in He.
  - apply Forall_forall. intros cat (exp & He & <-)%Hin.
    assert (Hsel : exp ∈ counted_under (expenses w) (category exp))
      by (by apply list_elem_of_filter).
    destruct (counted_under (expenses w) (category exp)); [|cbn; lia].
    by apply elem_of_nil in Hsel.
  - apply counted_under_covers.
    apply Forall_forall. intros exp He. apply Hin. by exists exp.
Qed.

(** ** filtering and sorting *)

Lemma StronglySorted_filter {X : Type} (R : relation X) (P : X -> Prop)
    `{!forall x, Decision (P x)} (l : list X) :
  StronglySorted R l -> StronglySorted R (filter P l).
Proof.
  induction 1 as [|x l Hl IH Hx]; [constructor|].
  rewrite filter_cons. destruct (decide (P x)); [|done].
  constructor; [done|]. apply Forall_forall.
  intros y [_ Hy]%list_elem_of_filter. revert y Hy. by apply Forall_forall.
Qed.

Lemma filter_comm {X : Type} (P Q : X -> Prop) `{!forall x, Decision (P x)}
    `{!forall x, Decision (Q x)} (l : list X) :
  filter P (filter Q l) = filter Q (filter P l).
Proof. rewrite !list_filter_filter. apply list_filter_iff. tauto. Qed.

(** Sorting and filtering can be done in either order. *)
Lemma sorted_reverse_filter {X : Type} (key : X -> string) (P : X -> Prop)
    `{!forall x, Decision (P x)} (l : list X) :
  filter P (Py.sorted_reverse key l) = Py.sorted_reverse key (filter P l).
Proof.
  apply (stable_desc_unique key).
  - apply StronglySorted_filter, sorted_reverse_sorted.
  - apply sorted_reverse_sorted.
  - intros t. rewrite filter_comm, !sorted_reverse_stable. apply filter_comm.
Qed.

(** X21. Picking the records of a category, or of a date range, out of
    the listing of [get_all_expenses] gives the result of the filter
    method sorted like the listing: newest first, records of one
    [created_at] in store order. *)
Theorem filtered_listing_is_sorted_filter {A : Type}
    (cat start_date end_date : string) (w : World A) :
  exists listing by_cat by_date,
    get_all_expenses w = (Ok listing, w) /\
    get_expenses_by_category cat w = (Ok by_cat, w) /\
    get_expenses_by_date_range start_date end_date w = (Ok by_date, w) /\
    filter (fun exp => PyStr.lower (category exp) = PyStr.lower cat) listing
    = Py.sorted_reverse created_at by_cat /\
    filter (fun exp => PyStr.le start_date (date exp) &&
                       PyStr.le (date exp) end_date = true) listing
    = Py.sorted_reverse created_at by_date.
Proof.
  eexists _, _, _. split; [reflexivity|]. split; [reflexivity|].
  split; [reflexivity|]. split; apply sorted_reverse_filter.
Qed.
